(** * OHLCV price API: partition resolution and multi-file retrieval

    A shallow embedding of [main.py] (the FastAPI service reading
    time-partitioned parquet files from an object store) and the
    properties of its range parsing, symbol normalisation, prefix
    construction, budgeted traversal and result assembly.

    Conventions.  Python [str] values are lists of characters; the
    character functions ([isspace], [upper], [lower]) are those of ASCII
    text, which is what symbols, timeframes, range tokens and object keys
    are made of.  Python [int] is [Z].  A raised exception is a value of
    [failure]; code that can raise returns a [result]. *)

From Stdlib Require Import List Ascii String ZArith Lia Bool NArith.
From Stdlib Require DecimalString.
Import ListNotations.

(** ** Strings *)

Definition str := list ascii.

(** A string literal of the source. *)
Definition lit (s : string) : str := list_ascii_of_string s.

Module PyStr.

Definition code (c : ascii) : N := N_of_ascii c.

(** [str.isspace] on ASCII: TAB, LF, VT, FF, CR, FS, GS, RS, US, SPACE. *)
Definition isspace (c : ascii) : bool :=
  let n := code c in
  ((9 <=? n) && (n <=? 13) || (28 <=? n) && (n <=? 32))%N.

Definition isdigit (c : ascii) : bool :=
  let n := code c in ((48 <=? n) && (n <=? 57))%N.

Definition upper_char (c : ascii) : ascii :=
  let n := code c in
  if ((97 <=? n) && (n <=? 122))%N then ascii_of_N (n - 32) else c.

Definition lower_char (c : ascii) : ascii :=
  let n := code c in
  if ((65 <=? n) && (n <=? 90))%N then ascii_of_N (n + 32) else c.

Definition upper (s : str) : str := map upper_char s.
Definition lower (s : str) : str := map lower_char s.

Fixpoint lstrip (s : str) : str :=
  match s with
  | c :: s' => if isspace c then lstrip s' else s
  | [] => []
  end.

Definition rstrip (s : str) : str := rev (lstrip (rev s)).

(** [s.strip()] *)
Definition strip (s : str) : str := rstrip (lstrip s).

(** [s.startswith(p)] *)
Fixpoint startswith (s p : str) {struct p} : bool :=
  match p, s with
  | [], _ => true
  | _ :: _, [] => false
  | a :: p', b :: s' => Ascii.eqb a b && startswith s' p'
  end.

(** [s.endswith(p)] *)
Definition endswith (s p : str) : bool := startswith (rev s) (rev p).

(** [s.split(sep)] for a one-character separator. *)
Fixpoint split_on (sep : ascii) (s : str) (cur : str) : list str :=
  match s with
  | [] => [cur]
  | c :: s' =>
      if Ascii.eqb c sep then cur :: split_on sep s' []
      else split_on sep s' (cur ++ [c])
  end.

Definition split (s : str) (sep : ascii) : list str := split_on sep s [].

Definition eqb (a b : str) : bool :=
  if list_eq_dec ascii_dec a b then true else false.

(** A string without leading or trailing whitespace. *)
Definition trimmed (s : str) : Prop :=
  lstrip s = s /\ lstrip (rev s) = rev s.

End PyStr.

Import PyStr.

(** ** [normalize_symbol_for_bucket] *)

Definition normalize_symbol_for_bucket (sym exchange : str) : str :=
  let s := upper (strip sym) in
  if startswith s (exchange ++ lit "_") then s
  else
    let s := if negb (endswith s (lit "-EQ")) then s ++ lit "-EQ" else s in
    exchange ++ lit "_" ++ s.

(** The normalisation rule in the words of the specification: the trimmed,
    uppercased symbol, prefixed with the exchange unless already so
    prefixed and suffixed with [-EQ] unless already so suffixed. *)
Definition spec_normalize (sym exchange : str) : str :=
  let s := upper (strip sym) in
  (if startswith s (exchange ++ lit "_") then [] else exchange ++ lit "_")
    ++ s ++ (if endswith s (lit "-EQ") then [] else lit "-EQ").

(** ** Exceptions and results *)

(** Exceptions that are not turned into an HTTP error by the handlers. *)
Inductive exn : Type :=
| IndexError          (* string index out of range *)
| OverflowError       (* timedelta / datetime arithmetic out of range *)
| TypeError           (* comparison of tz-aware and tz-naive timestamps *)
| ArrowInvalid        (* the bytes are not a parquet file *)
| ClientError         (* any object-store failure other than NoSuchKey *)
| NoSuchKey
| KeyError.           (* a template field without an argument *)

Inductive failure : Type :=
| HTTPException (status_code : Z) (detail : str)
| Uncaught (e : exn).

Inductive result (A : Type) : Type :=
| Ok (a : A)
| Raise (f : failure).

Arguments Ok {A} a.
Arguments Raise {A} f.

Definition MalformedQuery : failure :=
  HTTPException 400 (lit "Use symbol,timeframe,range (e.g. CIPLA,15m,1d)").
Definition MalformedRange : failure :=
  HTTPException 400 (lit "Range malformed, use e.g. 1d,7d,3m,1y").
Definition UnknownRangeUnit : failure :=
  HTTPException 400 (lit "Unknown range unit; use d/m/y").
Definition NoDataFound : failure :=
  HTTPException 404 (lit "No parquet files found for query.").
Definition ObjectNotFound : failure :=
  HTTPException 404 (lit "Key not found in bucket.").

(** ** [int(s)]

    The builtin integer parser on ASCII text: whitespace around the
    literal is skipped (the C [isspace] set, TAB to CR and SPACE, which
    is smaller than that of [str.strip]), one sign is allowed, the digits
    may be grouped by single underscores, and a literal of more than 4300
    digits is refused (the interpreter's default [int_max_str_digits]).
    [None] stands for [ValueError]. *)

Definition digit_val (c : ascii) : Z := Z.of_N (code c) - 48.

Definition c_isspace (c : ascii) : bool :=
  let n := code c in
  ((9 <=? n) && (n <=? 13) || (n =? 32))%N.

Fixpoint c_lstrip (s : str) : str :=
  match s with
  | c :: s' => if c_isspace c then c_lstrip s' else s
  | [] => []
  end.

Definition c_strip (s : str) : str := rev (c_lstrip (rev (c_lstrip s))).

Definition int_max_str_digits : Z := 4300.

Definition count_digits (s : str) : Z :=
  Z.of_nat (List.length (filter isdigit s)).

(** Every character is in the ASCII range. *)
Definition is_ascii (s : str) : bool :=
  forallb (fun c => (code c <? 128)%N) s.

Fixpoint int_digits (s : str) (acc : Z) (after_digit : bool) : option Z :=
  match s with
  | [] => if after_digit then Some acc else None
  | c :: s' =>
      if isdigit c then int_digits s' (10 * acc + digit_val c) true
      else if Ascii.eqb c "_" then
             if after_digit then int_digits s' acc false else None
      else None
  end.

Definition py_int (s : str) : option Z :=
  let t := c_strip s in
  if (int_max_str_digits <? count_digits t)%Z then None
  else
    match t with
    | [] => None
    | c :: r =>
        if Ascii.eqb c "+" then int_digits r 0 false
        else if Ascii.eqb c "-" then option_map Z.opp (int_digits r 0 false)
        else int_digits (c :: r) 0 false
    end.

(** [range(n)] *)
Definition py_range (n : Z) : list Z := map Z.of_nat (seq 0 (Z.to_nat n)).

(** [s[-1]] and [s[:-1]] *)
Definition last_char (s : str) : option ascii :=
  match rev s with
  | c :: _ => Some c
  | [] => None
  end.

Definition but_last (s : str) : str := removelast s.

(** ** [datetime]

    A naive [datetime] is the proleptic Gregorian ordinal of its date
    (1 is 0001-01-01) and the microseconds elapsed since midnight. *)

Module Datetime.

Record datetime : Type := mk { ordinal : Z; tod : Z }.

Definition MINORDINAL : Z := 1.
Definition MAXORDINAL : Z := 3652059.          (* 9999-12-31 *)
Definition MAXDELTADAYS : Z := 999999999.

(** [timedelta(days=n)] *)
Definition timedelta (days : Z) : result Z :=
  if (Z.abs days <=? MAXDELTADAYS)%Z then Ok days
  else Raise (Uncaught OverflowError).

(** [t - delta] *)
Definition sub (t : datetime) (days : Z) : result datetime :=
  let o := (ordinal t - days)%Z in
  if ((MINORDINAL <=? o) && (o <=? MAXORDINAL))%Z
  then Ok (mk o (tod t))
  else Raise (Uncaught OverflowError).

(** [t.date()], as an ordinal *)
Definition date (t : datetime) : Z := ordinal t.

(** [a <= b] *)
Definition leb (a b : datetime) : bool :=
  ((ordinal a <? ordinal b)
   || ((ordinal a =? ordinal b) && (tod a <=? tod b)))%Z.

(** Microseconds since 0001-01-01T00:00:00. *)
Definition instant (t : datetime) : Z :=
  ((ordinal t - 1) * 86400000000 + tod t)%Z.

(** The calendar date of an ordinal, as the standard library's
    [_ord2ymd] computes it. *)
Definition DI400Y : Z := 146097.
Definition DI100Y : Z := 36524.
Definition DI4Y : Z := 1461.

Definition DAYS_IN_MONTH (m : Z) : Z :=
  nth (Z.to_nat m) [-1; 31; 28; 31; 30; 31; 30; 31; 31; 30; 31; 30; 31]%Z 0%Z.

Definition DAYS_BEFORE_MONTH (m : Z) : Z :=
  nth (Z.to_nat m)
      [-1; 0; 31; 59; 90; 120; 151; 181; 212; 243; 273; 304; 334]%Z 0%Z.

Definition b2z (b : bool) : Z := if b then 1%Z else 0%Z.

Definition ord2ymd (n : Z) : Z * Z * Z :=
  let n := (n - 1)%Z in
  let n400 := (n / DI400Y)%Z in
  let n := (n mod DI400Y)%Z in
  let year := (n400 * 400 + 1)%Z in
  let n100 := (n / DI100Y)%Z in
  let n := (n mod DI100Y)%Z in
  let n4 := (n / DI4Y)%Z in
  let n := (n mod DI4Y)%Z in
  let n1 := (n / 365)%Z in
  let n := (n mod 365)%Z in
  let year := (year + n100 * 100 + n4 * 4 + n1)%Z in
  if ((n1 =? 4) || (n100 =? 4))%Z then ((year - 1)%Z, 12%Z, 31%Z)
  else
    let leapyear :=
      ((n1 =? 3) && (negb (n4 =? 24) || (n100 =? 3)))%Z in
    let month := Z.shiftr (n + 50) 5 in
    let preceding :=
      (DAYS_BEFORE_MONTH month + b2z ((2 <? month)%Z && leapyear))%Z in
    if (n <? preceding)%Z then
      let month := (month - 1)%Z in
      let preceding :=
        (preceding
         - (DAYS_IN_MONTH month + b2z ((month =? 2)%Z && leapyear)))%Z in
      (year, month, (n - preceding + 1)%Z)
    else (year, month, (n - preceding + 1)%Z).

Definition year (d : Z) : Z := fst (fst (ord2ymd d)).
Definition month (d : Z) : Z := snd (fst (ord2ymd d)).
Definition day (d : Z) : Z := snd (ord2ymd d).

End Datetime.

Import Datetime.

(** ** [str.format]

    Replacement fields [{name}] and [{name:02d}] over keyword arguments;
    [None] stands for the [KeyError] / [ValueError] of a bad template. *)

Inductive fmt_arg : Type :=
| AStr (s : str)
| AInt (z : Z).

(** [str(z)] *)
Definition str_of_int (z : Z) : str :=
  lit (DecimalString.NilZero.string_of_int (Z.to_int z)).

(** [format(z, "02d")]: zero-filled to width two, the sign counted. *)
Definition fmt_02d (z : Z) : str :=
  if ((0 <=? z) && (z <? 10))%Z then lit "0" ++ str_of_int z
  else str_of_int z.

Fixpoint lookup_arg (name : str) (kw : list (str * fmt_arg)) : option fmt_arg :=
  match kw with
  | [] => None
  | (k, v) :: kw' => if PyStr.eqb k name then Some v else lookup_arg name kw'
  end.

Definition render_field (field : str) (kw : list (str * fmt_arg)) : option str :=
  match split field ":" with
  | [name] =>
      match lookup_arg name kw with
      | Some (AStr s) => Some s
      | Some (AInt z) => Some (str_of_int z)
      | None => None
      end
  | [name; spec] =>
      match lookup_arg name kw with
      | Some (AInt z) => if PyStr.eqb spec (lit "02d") then Some (fmt_02d z) else None
      | _ => None
      end
  | _ => None
  end.

Fixpoint format_from (t : str) (field : option str) (kw : list (str * fmt_arg))
  : option str :=
  match t with
  | [] => match field with None => Some [] | Some _ => None end
  | c :: t' =>
      match field with
      | None =>
          if Ascii.eqb c "{" then format_from t' (Some []) kw
          else if Ascii.eqb c "}" then None
          else option_map (cons c) (format_from t' None kw)
      | Some f =>
          if Ascii.eqb c "}" then
            match render_field f kw, format_from t' None kw with
            | Some r, Some rest => Some (r ++ rest)
            | _, _ => None
            end
          else format_from t' (Some (f ++ [c])) kw
      end
  end.

Definition format (template : str) (kw : list (str * fmt_arg)) : option str :=
  format_from template None kw.

(** The two key styles of [get_price], in the order they are tried. *)
Definition prefixes_to_try_template : list str :=
  [ lit "processed/timeframe={timeframe}/exchange={exchange}/symbol={symbol}/year={Y}/month={m:02d}/day={d:02d}/";
    lit "processed/timeframe%3D{timeframe}/exchange%3D{exchange}/symbol%3D{symbol}/year%3D{Y}/month%3D{m:02d}/day%3D{d:02d}/" ].

Definition format_prefix (pfx_t timeframe exchange symbol : str) (d : Z)
  : option str :=
  format pfx_t
    [ (lit "timeframe", AStr timeframe); (lit "exchange", AStr exchange);
      (lit "symbol", AStr symbol); (lit "Y", AInt (year d));
      (lit "m", AInt (month d)); (lit "d", AInt (day d)) ].


(** ** Tables

    A decoded parquet file is a pandas [DataFrame]: column labels (taken
    to be distinct within one table) and rows aligned with them. *)

Inductive value : Type :=
| NaN
| Int (z : Z)
| Text (s : str)
| Timestamp (aware : bool) (us : Z)   (* microseconds; [aware] = has a time zone *)
| NaT
| Flag (b : bool).                    (* a cell of a boolean column *)

Record DataFrame : Type := mkDF { columns : list str; records : list (list value) }.

Module Frame.

Definition in_columns (c : str) (df : DataFrame) : bool :=
  existsb (PyStr.eqb c) (columns df).

Fixpoint index_of (c : str) (cols : list str) : option nat :=
  match cols with
  | [] => None
  | c' :: cols' =>
      if PyStr.eqb c' c then Some O else option_map S (index_of c cols')
  end.

(** The cell of a row under label [c]; absent labels read as [NaN]. *)
Definition cell (cols : list str) (row : list value) (c : str) : value :=
  match index_of c cols with
  | Some i => nth i row NaN
  | None => NaN
  end.

(** [df[c]] *)
Definition column (df : DataFrame) (c : str) : list value :=
  map (fun row => cell (columns df) row c) (records df).

Fixpoint set_nth (i : nat) (v : value) (row : list value) : list value :=
  match row, i with
  | [], _ => []
  | _ :: row', O => v :: row'
  | x :: row', S i' => x :: set_nth i' v row'
  end.

Fixpoint set_cells (i : nat) (rows : list (list value)) (vals : list value)
  : list (list value) :=
  match rows, vals with
  | row :: rows', v :: vals' => set_nth i v row :: set_cells i rows' vals'
  | _, _ => rows
  end.

(** [df[c] = vals] for a label that is present *)
Definition set_column (df : DataFrame) (c : str) (vals : list value) : DataFrame :=
  match index_of c (columns df) with
  | Some i => mkDF (columns df) (set_cells i (records df) vals)
  | None => df
  end.

Fixpoint select_rows (rows : list (list value)) (mask : list bool)
  : list (list value) :=
  match rows, mask with
  | row :: rows', b :: mask' =>
      if b then row :: select_rows rows' mask' else select_rows rows' mask'
  | _, _ => []
  end.

(** [df[mask]] *)
Definition select (df : DataFrame) (mask : list bool) : DataFrame :=
  mkDF (columns df) (select_rows (records df) mask).

Fixpoint mask_and (a b : list bool) : list bool :=
  match a, b with
  | x :: a', y :: b' => (x && y) :: mask_and a' b'
  | _, _ => []
  end.

Definition add_columns (seen cols : list str) : list str :=
  fold_left
    (fun acc c => if existsb (PyStr.eqb c) acc then acc else acc ++ [c])
    cols seen.

(** [pd.concat(frames, ignore_index=True, sort=False)]: the union of the
    labels in order of first appearance, every row re-aligned to it.
    Cells are carried over as they are: the change of a column's dtype
    that pandas makes when a column is missing from some table (integers
    becoming floats) is not represented. *)
Definition concat (frames : list DataFrame) : DataFrame :=
  let cols := fold_left (fun acc df => add_columns acc (columns df)) frames [] in
  mkDF cols
       (flat_map
          (fun df => map (fun row => map (cell (columns df) row) cols)
                         (records df))
          frames).

(** [len(df)] *)
Definition len (df : DataFrame) : Z := Z.of_nat (List.length (records df)).

(** [df.to_dict(orient="records")] *)
Definition to_dict (df : DataFrame) : list (list (str * value)) :=
  map (fun row => combine (columns df) row) (records df).

(** [series >= bound] / [series <= bound] on a datetime column whose
    dtype is tz-aware or tz-naive as [aware] says.  pandas compares the
    instants element-wise, [NaT] comparing false, and refuses to order a
    tz-aware column against a tz-naive bound (and conversely) with a
    [TypeError]. *)
Definition series_cmp (op : Z -> Z -> bool) (aware : bool)
           (col : list value) (bound : value) : result (list bool) :=
  match bound with
  | Timestamp b t =>
      if Bool.eqb aware b then
        Ok (map (fun v => match v with
                          | Timestamp _ x => op x t
                          | _ => false
                          end) col)
      else Raise (Uncaught TypeError)
  | _ => Raise (Uncaught TypeError)
  end.

End Frame.

Import Frame.

(** ** The service *)

Record obj : Type := mkObj { Key : str }.

(** One page of a [list_objects_v2] listing; [Contents] may be absent. *)
Record page : Type := mkPage { Contents : option (list obj) }.

(** The failures of the object store client. *)
Inductive s3_error : Type :=
| S3NoSuchKey
| S3ClientError.

Definition from_s3 {A : Type} (r : s3_error + A) : result A :=
  match r with
  | inl S3NoSuchKey => Raise (Uncaught NoSuchKey)
  | inl S3ClientError => Raise (Uncaught ClientError)
  | inr a => Ok a
  end.

(** What a request sees of the outside world: the clock, the bucket and
    the two library decoders. *)
Record env : Type := mkEnv {
  utcnow : datetime;
  (** the pages of [paginate(Bucket=S3_BUCKET, Prefix=prefix)], in order,
      each request succeeding or raising *)
  paginate : str -> list (s3_error + page);
  (** [get_object(Bucket=S3_BUCKET, Key=key)["Body"].read()] *)
  get_object : str -> s3_error + list Byte.byte;
  (** [pq.read_table(buf).to_pandas()], [None] when it raises *)
  pq_read_table : list Byte.byte -> option DataFrame;
  (** the instant [pd.to_datetime] reads in a cell, [None] when it cannot *)
  parse_instant : value -> option Z;
  (** whether [pd.to_datetime(col, errors="coerce", utc=True)] gives the
      column up as a whole and returns it tz-naive and all [NaT], as it
      does for a column of booleans *)
  to_datetime_naive : list value -> bool
}.

Inductive event : Type :=
| Paginate (prefix : str)       (* the listing of a prefix is started *)
| ListPage (prefix : str)       (* a page of a listing is requested *)
| GetObject (key : str)         (* an object is fetched *)
| Decoded (key : str)           (* its table is appended and counted *)
| PrintSkip (key : str).        (* the "skip" diagnostic *)

(** The locals [rows] and [files_read] of [get_price], and what happened
    so far, each event with the value of [files_read] at that moment (for
    [Decoded], the value just after the increment). *)
Record state : Type := mkState {
  rows : list DataFrame;
  files_read : Z;
  trace : list (event * Z)
}.

Definition init : state := mkState [] 0 [].

Definition M (A : Type) : Type := state -> result A * state.

Definition ret {A} (a : A) : M A := fun st => (Ok a, st).

Definition raise {A} (f : failure) : M A := fun st => (Raise f, st).

Definition bind {A B} (m : M A) (k : A -> M B) : M B :=
  fun st =>
    match m st with
    | (Ok a, st') => k a st'
    | (Raise f, st') => (Raise f, st')
    end.

Notation "x <- m ;; k" := (bind m (fun x => k))
  (at level 61, m at next level, right associativity).
Notation "m ;;; k" := (bind m (fun _ => k))
  (at level 61, right associativity).

Definition lift {A} (r : result A) : M A := fun st => (r, st).

Definition get_files_read : M Z := fun st => (Ok (files_read st), st).

Definition get_rows : M (list DataFrame) := fun st => (Ok (rows st), st).

Definition emit (e : event) : M unit :=
  fun st => (Ok tt, mkState (rows st) (files_read st)
                            (trace st ++ [(e, files_read st)])).

(** [rows.append(df); files_read += 1] *)
Definition append_row (key : str) (df : DataFrame) : M unit :=
  fun st => (Ok tt, mkState (rows st ++ [df]) (files_read st + 1)
                            (trace st ++ [(Decoded key, (files_read st + 1)%Z)])).

Definition candidates : list str :=
  [lit "timestamp"; lit "ts"; lit "time"; lit "datetime"; lit "date"].

(** [pd.to_datetime(dt)] of a naive [datetime] *)
Definition to_timestamp (t : datetime) : value := Timestamp false (instant t).

Section Service.

Variable E : env.

Definition read_parquet_bytes (b : list Byte.byte) : result DataFrame :=
  match pq_read_table E b with
  | Some df => Ok df
  | None => Raise (Uncaught ArrowInvalid)
  end.

(** The cells of a column read as UTC instants, unreadable ones
    becoming [NaT]. *)
Definition to_datetime_cells (col : list value) : list value :=
  map (fun v => match parse_instant E v with
                | Some t => Timestamp true t
                | None => NaT
                end) col.

(** [pd.to_datetime(series, errors="coerce", utc=True)]: whether the
    resulting column is tz-aware, and its cells. *)
Definition to_datetime_utc (col : list value) : bool * list value :=
  if to_datetime_naive E col then (false, map (fun _ => NaT) col)
  else (true, to_datetime_cells col).

(** Lines 50-63: the start of the range. *)
Definition range_start (now : datetime) (rng : str) : result datetime :=
  match last_char rng with
  | None => Raise (Uncaught IndexError)
  | Some c =>
      let unit := lower_char c in
      match py_int (but_last rng) with
      | None => Raise MalformedRange
      | Some val =>
          let back (days : Z) :=
            match timedelta days with
            | Ok d => Datetime.sub now d
            | Raise f => Raise f
            end in
          if Ascii.eqb unit "d" then back val
          else if Ascii.eqb unit "m" then back (30 * val)%Z
          else if Ascii.eqb unit "y" then back (365 * val)%Z
          else Raise UnknownRangeUnit
      end
  end.

(** Line 73: the days probed, as ordinals. *)
Definition date_iter (start now : datetime) : list Z :=
  map (fun i => (date start + i)%Z) (py_range (date now - date start + 1)).

Section Traversal.

Variable max_files : Z.

(** Lines 86-100: the objects of one page. *)
Fixpoint for_objects (objs : list obj) : M unit :=
  match objs with
  | [] => ret tt
  | o :: rest =>
      let key := Key o in
      if negb (endswith (lower key) (lit ".parquet")) then
        for_objects rest                                   (* continue *)
      else
        n <- get_files_read ;;
        if (max_files <=? n)%Z then ret tt                 (* break *)
        else
          emit (GetObject key) ;;;
          b <- lift (from_s3 (get_object E key)) ;;
          match read_parquet_bytes b with
          | Ok df => append_row key df ;;; for_objects rest
          | Raise _ => emit (PrintSkip key) ;;; for_objects rest
          end
  end.

(** Lines 85-102: the pages of one listing. *)
Fixpoint for_pages (prefix : str) (pages : list (s3_error + page))
  : M unit :=
  match pages with
  | [] => ret tt
  | p :: rest =>
      emit (ListPage prefix) ;;;
      pg <- lift (from_s3 p) ;;
      for_objects (match Contents pg with Some c => c | None => [] end) ;;;
      n <- get_files_read ;;
      if (max_files <=? n)%Z then ret tt                   (* break *)
      else for_pages prefix rest
  end.

(** Lines 82-104: the key styles of one day. *)
Fixpoint for_templates (timeframe exchange symbol : str) (d : Z)
         (templates : list str) : M unit :=
  match templates with
  | [] => ret tt
  | pfx_t :: rest =>
      match format_prefix pfx_t timeframe exchange symbol d with
      | None => raise (Uncaught KeyError)
      | Some prefix =>
          emit (Paginate prefix) ;;;
          for_pages prefix (paginate E prefix) ;;;
          n <- get_files_read ;;
          if (max_files <=? n)%Z then ret tt               (* break *)
          else for_templates timeframe exchange symbol d rest
      end
  end.

(** Lines 81-106: the days. *)
Fixpoint for_days (timeframe exchange symbol : str) (days : list Z)
  : M unit :=
  match days with
  | [] => ret tt
  | d :: rest =>
      for_templates timeframe exchange symbol d prefixes_to_try_template ;;;
      n <- get_files_read ;;
      if (max_files <=? n)%Z then ret tt                   (* break *)
      else for_days timeframe exchange symbol rest
  end.

End Traversal.

(** Lines 113-117, for given bounds: the first candidate label present
    is converted and the rows between the bounds are selected. *)
Fixpoint filter_between (cands : list str) (big : DataFrame) (lo hi : value)
  : result DataFrame :=
  match cands with
  | [] => Ok big
  | cand :: rest =>
      if in_columns cand big then
        let conv := to_datetime_utc (column big cand) in
        let big := set_column big cand (snd conv) in
        match series_cmp Z.geb (fst conv) (column big cand) lo with
        | Raise f => Raise f
        | Ok ge =>
            match series_cmp Z.leb (fst conv) (column big cand) hi with
            | Raise f => Raise f
            | Ok le => Ok (select big (mask_and ge le))
            end
        end                                                  (* break *)
      else filter_between rest big lo hi
  end.

Record price_response : Type := mkPrice {
  symbol : str;
  symbol_partition : str;
  timeframe : str;
  range : str;
  rows_returned : Z;
  data : list (list (str * value))
}.

Definition get_price_run (params exchange : str) (max_files : Z)
  : M price_response :=
  let parts := map strip (split params ",") in
  match parts with
  | [sym; timeframe; rng] =>
      let symbol_partition := normalize_symbol_for_bucket sym exchange in
      let now := utcnow E in
      start <- lift (range_start now rng) ;;
      for_days max_files timeframe exchange symbol_partition
               (date_iter start now) ;;;
      rows <- get_rows ;;
      match rows with
      | [] => raise NoDataFound
      | _ :: _ =>
          let big := concat rows in
          big <- lift (filter_between candidates big
                                      (to_timestamp start) (to_timestamp now)) ;;
          ret (mkPrice sym symbol_partition timeframe rng
                       (len big) (to_dict big))
      end
  | _ => raise MalformedQuery
  end.

(** The endpoint [GET /price/get/{params}]. *)
Definition get_price (params exchange : str) (max_files : Z)
  : result price_response :=
  fst (get_price_run params exchange max_files init).

Record key_response : Type := mkKeyResp {
  key : str;
  nrows : Z;
  key_data : list (list (str * value))
}.

(** [series.dt.tz_convert(None)] on the cells of a tz-aware column *)
Definition tz_convert_none (col : list value) : list value :=
  map (fun v => match v with Timestamp _ t => Timestamp false t | _ => v end) col.

(** Lines 138-141: the first candidate label present is converted and
    made tz-naive; [tz_convert] raises on a column that is tz-naive
    already. *)
Fixpoint naive_timestamps (cands : list str) (df : DataFrame)
  : result DataFrame :=
  match cands with
  | [] => Ok df
  | cand :: rest =>
      if in_columns cand df then
        let conv := to_datetime_utc (column df cand) in
        if fst conv
        then Ok (set_column df cand (tz_convert_none (snd conv)))
        else Raise (Uncaught TypeError)                      (* break *)
      else naive_timestamps rest df
  end.

(** The endpoint [GET /price/get_by_key]. *)
Definition get_by_key (key : str) : result key_response :=
  match get_object E key with
  | inl S3NoSuchKey => Raise ObjectNotFound
  | inl S3ClientError => Raise (Uncaught ClientError)
  | inr b =>
      match read_parquet_bytes b with
      | Raise f => Raise f
      | Ok df =>
          match naive_timestamps candidates df with
          | Raise f => Raise f
          | Ok df => Ok (mkKeyResp key (len df) (to_dict df))
          end
      end
  end.

End Service.

(** ** The range token as the specification reads it

    A valid token is [^\d+[dmy]$]: a non-empty run of decimal digits, the
    magnitude, and a unit worth 1, 30 or 365 days. *)

Definition nonneg_int_literal (s : str) : bool :=
  negb (Nat.eqb (List.length s) 0) && forallb isdigit s.

Definition decimal_value (digits : str) : Z :=
  fold_left (fun acc c => (10 * acc + digit_val c)%Z) digits 0%Z.

Definition unit_days (u : ascii) : Z :=
  if Ascii.eqb u "d" then 1
  else if Ascii.eqb u "m" then 30
  else if Ascii.eqb u "y" then 365
  else 0.

(** ** Sample environments *)

(** Midnight of 2024-01-01. *)
Definition new_year_2024 : datetime := Datetime.mk 738886 0.

(** A non-empty column of booleans: what the sample environments take
    [pd.to_datetime] to give up on. *)
Definition boolean_column (col : list value) : bool :=
  match col with
  | [] => false
  | _ :: _ => forallb (fun v => match v with Flag _ => true | _ => false end) col
  end.

(** An empty bucket. *)
Definition empty_bucket : env :=
  mkEnv new_year_2024
        (fun _ => [inr (mkPage None)])
        (fun _ => inl S3NoSuchKey)
        (fun _ => None)
        (fun _ => None)
        boolean_column.

(** ** The partition prefix as the specification writes it

    [processed/timeframe={tf}/exchange={ex}/symbol={sym}/year={Y}/month={MM}/day={DD}/]
    with the separator between a partition key and its value rendered as
    [sep]. *)

Definition partition_prefix (sep timeframe exchange symbol : str) (d : Z) : str :=
  lit "processed/timeframe" ++ sep ++ timeframe
  ++ lit "/exchange" ++ sep ++ exchange
  ++ lit "/symbol" ++ sep ++ symbol
  ++ lit "/year" ++ sep ++ str_of_int (year d)
  ++ lit "/month" ++ sep ++ fmt_02d (month d)
  ++ lit "/day" ++ sep ++ fmt_02d (day d)
  ++ lit "/".

(** The prefixes of a day, in the order they are to be probed. *)
Definition day_prefixes (timeframe exchange symbol : str) (d : Z) : list str :=
  [ partition_prefix (lit "=") timeframe exchange symbol d;
    partition_prefix (lit "%3D") timeframe exchange symbol d ].

(** The prefixes whose listing was started, in order. *)
Definition probes (tr : list (event * Z)) : list str :=
  flat_map (fun en => match fst en with Paginate p => [p] | _ => [] end) tr.

(** [P] holds of [i], [i + 1], ..., [i + fuel - 1]. *)
Fixpoint all_from (fuel : nat) (i : Z) (P : Z -> bool) : bool :=
  match fuel with
  | O => true
  | S fuel' => P i && all_from fuel' (i + 1)%Z P
  end.

(** Month and day of the day at offset [r] in a 400-year cycle. *)
Definition month_day_in_cycle (r : Z) : Z * Z :=
  (month (r + 1), day (r + 1)).

Definition valid_month_day (md : Z * Z) : bool :=
  ((1 <=? fst md) && (fst md <=? 12) && (1 <=? snd md) && (snd md <=? 31))%Z.

(** Exactly two decimal digits. *)
Definition two_digits (s : str) : bool :=
  Nat.eqb (List.length s) 2 && forallb isdigit s.

(** ** The budget invariant

    The counter is within the budget and counts the decoded tables; every
    increment left it within the budget, and everything else (starting a
    listing, requesting a page, fetching an object, reporting a skip)
    happened while it was below the budget. *)

Definition event_in_budget (max_files : Z) (en : event * Z) : Prop :=
  match fst en with
  | Decoded _ => (snd en <= max_files)%Z
  | _ => (snd en < max_files)%Z
  end.

Definition within_budget (max_files : Z) (st : state) : Prop :=
  (files_read st <= max_files)%Z
  /\ Forall (event_in_budget max_files) (trace st)
  /\ Z.of_nat (List.length (rows st)) = files_read st.

(** A bucket in which every prefix lists two pages, three parquet objects
    and a marker file in all, each object decoding to a one-row table
    without a timestamp column. *)
Definition busy_bucket : env :=
  mkEnv new_year_2024
        (fun prefix =>
           [ inr (mkPage (Some [ mkObj (prefix ++ lit "part-0.parquet");
                                 mkObj (prefix ++ lit "_SUCCESS");
                                 mkObj (prefix ++ lit "part-1.PARQUET") ]));
             inr (mkPage (Some [ mkObj (prefix ++ lit "part-2.parquet") ])) ])
        (fun _ => inr [])
        (fun _ => Some (mkDF [lit "close"] [[Int 100]]))
        (fun _ => None)
        boolean_column.

(** A failure that is a decode error of [read_parquet_bytes]. *)
Definition decode_failure (f : failure) : bool :=
  match f with
  | Uncaught ArrowInvalid => true
  | _ => false
  end.

Definition raises_decode {A : Type} (r : result A) : Prop :=
  match r with
  | Raise f => decode_failure f = true
  | Ok _ => False
  end.

(** A bucket whose objects are all corrupt. *)
Definition corrupt_bucket : env :=
  mkEnv new_year_2024
        (fun prefix => [inr (mkPage (Some [mkObj (prefix ++ lit "part-0.parquet")]))])
        (fun _ => inr [Byte.x00])
        (fun _ => None)
        (fun _ => None)
        boolean_column.

(** A bucket with five objects under the plain prefix of 2024-01-01 and
    nothing elsewhere; the third object is corrupt, the others decode to
    one row each, holding the number of the part. *)
Definition cipla_day : str :=
  lit "processed/timeframe=15m/exchange=NSE/symbol=NSE_CIPLA-EQ/year=2024/month=01/day=01/".

Definition part_byte (key : str) : Byte.byte :=
  byte_of_ascii (nth (List.length cipla_day + 5) key "x"%char).

Definition mixed_bucket : env :=
  mkEnv new_year_2024
        (fun prefix =>
           if PyStr.eqb prefix cipla_day then
             [ inr (mkPage (Some (map (fun n => mkObj (cipla_day ++ lit "part-" ++ n ++ lit ".parquet"))
                                      [lit "0"; lit "1"; lit "2"; lit "3"; lit "4"]))) ]
           else [ inr (mkPage None) ])
        (fun key => inr [part_byte key])
        (fun b => match b with
                  | [c] => if Byte.eqb c Byte.x32 then None
                           else Some (mkDF [lit "close"] [[Int (Z.of_N (Byte.to_N c) - 48)]])
                  | _ => None
                  end)
        (fun _ => None)
        boolean_column.

(** A bucket whose only object decodes to a table without rows. *)
Definition hollow_bucket : env :=
  mkEnv new_year_2024
        (fun prefix =>
           if PyStr.eqb prefix cipla_day
           then [inr (mkPage (Some [mkObj (cipla_day ++ lit "part-0.parquet")]))]
           else [inr (mkPage None)])
        (fun _ => inr [])
        (fun _ => Some (mkDF [lit "open"; lit "close"] []))
        (fun _ => None)
        boolean_column.

(** [l] is an initial segment of [full]. *)
Definition is_prefix {A : Type} (l full : list A) : Prop :=
  exists rest, full = l ++ rest.

(** The prefixes the templates format to for a day, in order. *)
Definition formatted (timeframe exchange symbol : str) (d : Z)
           (templates : list str) : list str :=
  flat_map (fun t => match format_prefix t timeframe exchange symbol d with
                     | Some p => [p]
                     | None => []
                     end) templates.

(** Noon of 2023-12-31, in microseconds. *)
Definition noon_before : Z := instant (Datetime.mk 738885 43200000000).

(** A table with a [timestamp] column: a row at noon of 2023-12-31, a row
    a year earlier, a row whose timestamp cannot be read, and a row at
    midnight of 2024-01-01. *)
Definition stamped_table : DataFrame :=
  mkDF [lit "timestamp"; lit "close"]
       [ [Timestamp true noon_before; Int 101];
         [Timestamp true (noon_before - 365 * 86400000000); Int 90];
         [Text (lit "n/a"); Int 95];
         [Timestamp true (instant new_year_2024); Int 102] ].

(** A bucket holding that table under the plain prefix of 2024-01-01. *)
Definition stamped_bucket : env :=
  mkEnv new_year_2024
        (fun prefix =>
           if PyStr.eqb prefix cipla_day
           then [inr (mkPage (Some [mkObj (cipla_day ++ lit "part-0.parquet")]))]
           else [inr (mkPage None)])
        (fun _ => inr [])
        (fun _ => Some stamped_table)
        (fun v => match v with Timestamp _ t => Some t | _ => None end)
        boolean_column.

(** A table whose [date] column holds booleans. *)
Definition flagged_table : DataFrame :=
  mkDF [lit "date"; lit "close"]
       [ [Flag true; Int 101]; [Flag false; Int 90] ].

(** A bucket holding that table under the plain prefix of 2024-01-01. *)
Definition flagged_bucket : env :=
  mkEnv new_year_2024
        (fun prefix =>
           if PyStr.eqb prefix cipla_day
           then [inr (mkPage (Some [mkObj (cipla_day ++ lit "part-0.parquet")]))]
           else [inr (mkPage None)])
        (fun _ => inr [])
        (fun _ => Some flagged_table)
        (fun v => match v with Timestamp _ t => Some t | _ => None end)
        boolean_column.

(** ** Credentials

    [get_session] and the way both endpoints call it: a key given in the
    query is used when it is a non-empty string, otherwise the one of the
    process environment. *)

Record Session : Type := mkSession {
  aws_access_key_id : option str;
  aws_secret_access_key : option str;
  region_name : str
}.

(** The truth value of an optional string: [None] and [""] are false. *)
Definition truthy (o : option str) : bool :=
  match o with
  | Some (_ :: _) => true
  | _ => false
  end.

(** [a or b] *)
Definition py_or (a b : option str) : option str :=
  if truthy a then a else b.

Definition get_session (access_key secret_key : option str) (region : str)
  : Session :=
  if truthy access_key && truthy secret_key
  then mkSession access_key secret_key region
  else mkSession None None region.

(** The session opened by [get_price] and by [get_by_key]. *)
Definition endpoint_session (aws_access_key aws_secret_key : option str)
           (env_access_key env_secret_key : option str) (region : str)
  : Session :=
  get_session (py_or aws_access_key env_access_key)
              (py_or aws_secret_key env_secret_key) region.

(** The number of occurrences of a character. *)
Definition count_char (c : ascii) (s : str) : nat :=
  List.length (filter (Ascii.eqb c) s).

(** ** Reading the traversal *)

(** [key.lower().endswith(".parquet")] *)
Definition is_parquet (key : str) : bool := endswith (lower key) (lit ".parquet").

(** The state after an event, and after a table is appended. *)
Definition log (e : event) (st : state) : state := snd (emit e st).

Definition push (key : str) (df : DataFrame) (st : state) : state :=
  snd (append_row key df st).

(** Failures of the request itself, found before the store is used. *)
Definition parse_failure (f : failure) : Prop :=
  f = MalformedQuery \/ f = Uncaught IndexError \/ f = MalformedRange
  \/ f = UnknownRangeUnit \/ f = Uncaught OverflowError.

(** Failures handed on from the object store. *)
Definition store_failure (f : failure) : Prop :=
  f = Uncaught NoSuchKey \/ f = Uncaught ClientError.

(** [I] after a normal end, [J] and a store failure after a raise. *)
Definition holds_after {A : Type} (I J : state -> Prop) (out : result A * state)
  : Prop :=
  match fst out with
  | Ok _ => I (snd out)
  | Raise f => J (snd out) /\ store_failure f
  end.

(** A property of the keys that were fetched, counted or skipped. *)
Definition fetched_keys (P : str -> Prop) (st : state) : Prop :=
  Forall (fun en => match fst en with
                    | GetObject k | Decoded k | PrintSkip k => P k
                    | _ => True
                    end) (trace st).

Definition is_get (e : event) : bool :=
  match e with GetObject _ => true | _ => false end.
Definition is_decoded (e : event) : bool :=
  match e with Decoded _ => true | _ => false end.
Definition is_skip (e : event) : bool :=
  match e with PrintSkip _ => true | _ => false end.

Definition count_events (p : event -> bool) (st : state) : nat :=
  List.length (filter (fun en => p (fst en)) (trace st)).

(** What [get_price] answers once the traversal has ended normally. *)
Definition assemble (E : env) (sym symbol_partition tf rng : str)
           (start : datetime) (st : state) : result price_response * state :=
  match rows st with
  | [] => (Raise NoDataFound, st)
  | _ :: _ =>
      match filter_between E candidates (concat (rows st))
                           (to_timestamp start) (to_timestamp (utcnow E)) with
      | Ok big =>
          (Ok (mkPrice sym symbol_partition tf rng (len big) (to_dict big)), st)
      | Raise f => (Raise f, st)
      end
  end.

(** Every row has one cell per column. *)
Definition well_formed (df : DataFrame) : Prop :=
  Forall (fun row => List.length row = List.length (columns df)) (records df).

(** The first label of [cands] that is a column of [df]. *)
Definition first_present (cands : list str) (df : DataFrame) : option str :=
  find (fun c => in_columns c df) cands.

(** A timestamp without a time zone, or no timestamp. *)
Definition naive_or_missing (v : value) : Prop :=
  v = NaT \/ exists t, v = Timestamp false t.

(** * Properties *)

(** ** Strings *)

Section StringFacts.

Lemma startswith_app (p t : str) : startswith (p ++ t) p = true.
Proof.
  induction p as [|a p IH]; simpl; [reflexivity|].
  now rewrite Ascii.eqb_refl.
Qed.

Lemma startswith_inv (p s : str) :
  startswith s p = true -> exists t, s = p ++ t.
Proof.
  revert s; induction p as [|a p IH]; intros s H.
  - now exists s.
  - destruct s as [|b s]; simpl in H; [discriminate|].
    apply andb_true_iff in H as [Hab Hs].
    apply Ascii.eqb_eq in Hab; subst b.
    destruct (IH _ Hs) as [t ->]; now exists t.
Qed.

Lemma endswith_app (t suf : str) : endswith (t ++ suf) suf = true.
Proof.
  unfold endswith; rewrite rev_app_distr; apply startswith_app.
Qed.

Lemma endswith_inv (s suf : str) :
  endswith s suf = true -> exists t, s = t ++ suf.
Proof.
  unfold endswith; intros H.
  destruct (startswith_inv _ _ H) as [t Ht].
  exists (rev t).
  rewrite <- (rev_involutive s), Ht, rev_app_distr.
  now rewrite rev_involutive.
Qed.

Lemma upper_char_idem (c : ascii) : upper_char (upper_char c) = upper_char c.
Proof. destruct c as [[] [] [] [] [] [] [] []]; reflexivity. Qed.

Lemma isspace_upper_char (c : ascii) : isspace (upper_char c) = isspace c.
Proof. destruct c as [[] [] [] [] [] [] [] []]; reflexivity. Qed.

Lemma upper_idem (s : str) : upper (upper s) = upper s.
Proof.
  unfold upper; rewrite map_map; apply map_ext; intros; apply upper_char_idem.
Qed.

Lemma upper_app (a b : str) : upper (a ++ b) = upper a ++ upper b.
Proof. apply map_app. Qed.

Lemma lstrip_upper (s : str) : lstrip (upper s) = upper (lstrip s).
Proof.
  induction s as [|c s IH]; simpl; [reflexivity|].
  rewrite isspace_upper_char; now destruct (isspace c).
Qed.

Lemma upper_rev (s : str) : upper (rev s) = rev (upper s).
Proof. apply map_rev. Qed.

Lemma strip_upper (s : str) : strip (upper s) = upper (strip s).
Proof.
  unfold strip, rstrip.
  now rewrite lstrip_upper, <- upper_rev, lstrip_upper, <- upper_rev.
Qed.

Lemma lstrip_length (s : str) : (List.length (lstrip s) <= List.length s)%nat.
Proof.
  induction s as [|c s IH]; simpl; [lia|].
  destruct (isspace c); simpl; lia.
Qed.

Lemma lstrip_fixed_head (c : ascii) (s : str) :
  lstrip (c :: s) = c :: s -> isspace c = false.
Proof.
  simpl; destruct (isspace c); [|reflexivity].
  intros H; pose proof (lstrip_length s) as L.
  rewrite H in L; simpl in L; lia.
Qed.

Lemma lstrip_head (c : ascii) (s : str) :
  isspace c = false -> lstrip (c :: s) = c :: s.
Proof. simpl; now intros ->. Qed.

Lemma lstrip_idem (s : str) : lstrip (lstrip s) = lstrip s.
Proof.
  induction s as [|c s IH]; simpl; [reflexivity|].
  destruct (isspace c) eqn:Hc; [exact IH|].
  now apply lstrip_head.
Qed.

Lemma lstrip_fixed_prefix (a b : str) :
  lstrip (a ++ b) = a ++ b -> lstrip a = a.
Proof.
  destruct a as [|c a]; [reflexivity|].
  intros H; apply lstrip_fixed_head in H.
  now apply lstrip_head.
Qed.

(** What [lstrip] removes is a prefix. *)
Lemma lstrip_suffix (s : str) : exists ws, s = ws ++ lstrip s.
Proof.
  induction s as [|c s [ws IH]]; [now exists []|].
  simpl; destruct (isspace c).
  - exists (c :: ws); simpl; now f_equal.
  - now exists [].
Qed.

Lemma strip_trimmed (s : str) : trimmed s -> strip s = s.
Proof.
  intros [Hl Hr]; unfold strip, rstrip.
  now rewrite Hl, Hr, rev_involutive.
Qed.

Lemma trimmed_strip (s : str) : trimmed (strip s).
Proof.
  unfold trimmed, strip, rstrip; split.
  - destruct (lstrip_suffix (rev (lstrip s))) as [ws Hws].
    apply lstrip_fixed_prefix with (b := rev ws).
    rewrite <- rev_app_distr, <- Hws, rev_involutive.
    apply lstrip_idem.
  - rewrite rev_involutive; apply lstrip_idem.
Qed.

Lemma strip_idem (s : str) : strip (strip s) = strip s.
Proof. apply strip_trimmed, trimmed_strip. Qed.

(** The first step of normalisation is idempotent. *)
Lemma upper_strip_idem (s : str) :
  upper (strip (upper (strip s))) = upper (strip s).
Proof. now rewrite strip_upper, strip_idem, upper_idem. Qed.

End StringFacts.

(** ** Symbol normalisation *)

Section Normalisation.

Lemma normalize_unprefixed (sym exchange : str) :
  startswith (upper (strip sym)) (exchange ++ lit "_") = false ->
  exists t,
    normalize_symbol_for_bucket sym exchange
    = (exchange ++ lit "_" ++ t) ++ lit "-EQ"
    /\ upper t = t.
Proof.
  intros Hp; unfold normalize_symbol_for_bucket; rewrite Hp.
  destruct (endswith (upper (strip sym)) (lit "-EQ")) eqn:He; simpl negb; cbv iota.
  - destruct (endswith_inv _ _ He) as [t Ht].
    exists t; split.
    + now rewrite Ht, <- !app_assoc.
    + pose proof (upper_idem (strip sym)) as Hu.
      rewrite Ht, upper_app in Hu.
      now apply app_inv_tail in Hu.
  - exists (upper (strip sym)); split.
    + now rewrite <- !app_assoc.
    + apply upper_idem.
Qed.

Lemma trimmed_wrapped (exchange t : str) :
  lstrip exchange = exchange ->
  trimmed ((exchange ++ lit "_" ++ t) ++ lit "-EQ").
Proof.
  intros Hx; split.
  - destruct exchange as [|c e].
    + reflexivity.
    + apply lstrip_fixed_head in Hx.
      simpl; now rewrite Hx.
  - now rewrite rev_app_distr.
Qed.

End Normalisation.

(** C5, as stated, fails: a symbol that already carries the exchange
    prefix is returned as it is, without the [-EQ] suffix. *)
Lemma normalize_prefixed_gets_no_suffix :
  normalize_symbol_for_bucket (lit "NSE_CIPLA") (lit "NSE") = lit "NSE_CIPLA"
  /\ endswith (normalize_symbol_for_bucket (lit "NSE_CIPLA") (lit "NSE"))
              (lit "-EQ") = false
  /\ normalize_symbol_for_bucket (lit "NSE_CIPLA") (lit "NSE")
     <> spec_normalize (lit "NSE_CIPLA") (lit "NSE").
Proof. repeat split; try reflexivity; discriminate. Qed.

(** C5 (amended): the normalised symbol always starts with the exchange
    prefix.  When the trimmed, uppercased input already starts with it,
    that input is returned unchanged; otherwise the result is the one the
    specification describes (prefix added, [-EQ] added unless present) and
    ends with [-EQ].  [CIPLA] on [NSE] gives [NSE_CIPLA-EQ]. *)
Theorem normalize_symbol_shape (sym exchange : str) :
  let s := upper (strip sym) in
  let r := normalize_symbol_for_bucket sym exchange in
  startswith r (exchange ++ lit "_") = true
  /\ (if startswith s (exchange ++ lit "_") then r = s
      else r = spec_normalize sym exchange /\ endswith r (lit "-EQ") = true)
  /\ normalize_symbol_for_bucket (lit "CIPLA") (lit "NSE") = lit "NSE_CIPLA-EQ".
Proof.
  cbv zeta.
  destruct (startswith (upper (strip sym)) (exchange ++ lit "_")) eqn:Hp.
  - unfold normalize_symbol_for_bucket; rewrite Hp; auto.
  - destruct (normalize_unprefixed _ _ Hp) as [t [Hr _]].
    repeat split.
    + rewrite Hr, <- !app_assoc, (app_assoc exchange).
      apply startswith_app.
    + unfold normalize_symbol_for_bucket, spec_normalize; rewrite Hp.
      destruct (endswith (upper (strip sym)) (lit "-EQ")); simpl negb; cbv iota.
      * now rewrite app_nil_r, <- app_assoc.
      * now rewrite <- !app_assoc.
    + rewrite Hr; apply endswith_app.
Qed.

(** C6, as stated, fails for an exchange written in lower case: the
    prefix is not recognised once the symbol has been uppercased. *)
Lemma normalize_twice_lowercase_exchange :
  normalize_symbol_for_bucket
    (normalize_symbol_for_bucket (lit "CIPLA") (lit "nse")) (lit "nse")
  <> normalize_symbol_for_bucket (lit "CIPLA") (lit "nse").
Proof. discriminate. Qed.

(** C6 (amended): normalisation is idempotent for every exchange that is
    already in upper case and has no leading whitespace. *)
Theorem normalize_idempotent (sym exchange : str) :
  upper exchange = exchange ->
  lstrip exchange = exchange ->
  normalize_symbol_for_bucket (normalize_symbol_for_bucket sym exchange) exchange
  = normalize_symbol_for_bucket sym exchange.
Proof.
  intros Hu Hl.
  destruct (startswith (upper (strip sym)) (exchange ++ lit "_")) eqn:Hp.
  - assert (Hn : normalize_symbol_for_bucket sym exchange = upper (strip sym))
      by (unfold normalize_symbol_for_bucket; now rewrite Hp).
    rewrite Hn.
    unfold normalize_symbol_for_bucket.
    now rewrite upper_strip_idem, Hp.
  - destruct (normalize_unprefixed _ _ Hp) as [t [Hr Ht]].
    rewrite Hr.
    unfold normalize_symbol_for_bucket at 1.
    rewrite (strip_trimmed _ (trimmed_wrapped exchange t Hl)).
    assert (Hup : upper ((exchange ++ lit "_" ++ t) ++ lit "-EQ")
                  = (exchange ++ lit "_" ++ t) ++ lit "-EQ").
    { rewrite !upper_app, Hu, Ht; reflexivity. }
    rewrite Hup.
    assert (Hs : startswith ((exchange ++ lit "_" ++ t) ++ lit "-EQ")
                            (exchange ++ lit "_") = true).
    { rewrite <- !app_assoc, (app_assoc exchange); apply startswith_app. }
    now rewrite Hs.
Qed.

Lemma normalize_idempotent_witness :
  normalize_symbol_for_bucket
    (normalize_symbol_for_bucket (lit " cipla ") (lit "NSE")) (lit "NSE")
  = normalize_symbol_for_bucket (lit " cipla ") (lit "NSE").
Proof. apply normalize_idempotent; reflexivity. Defined.

(** ** Range parsing *)

Section RangeFacts.

Lemma isdigit_not_space (c : ascii) : isdigit c = true -> isspace c = false.
Proof. destruct c as [[] [] [] [] [] [] [] []]; vm_compute; congruence. Qed.

Lemma isdigit_not_sign (c : ascii) :
  isdigit c = true -> Ascii.eqb c "+" = false /\ Ascii.eqb c "-" = false.
Proof.
  destruct c as [[] [] [] [] [] [] [] []]; vm_compute; intuition congruence.
Qed.

Lemma digit_val_nonneg (c : ascii) : isdigit c = true -> (0 <= digit_val c)%Z.
Proof.
  destruct c as [[] [] [] [] [] [] [] []]; vm_compute;
    intros H; try discriminate H; intros H'; discriminate H'.
Qed.

Lemma isdigit_not_c_space (c : ascii) : isdigit c = true -> c_isspace c = false.
Proof. destruct c as [[] [] [] [] [] [] [] []]; vm_compute; congruence. Qed.

Lemma c_lstrip_digits (s : str) : forallb isdigit s = true -> c_lstrip s = s.
Proof.
  destruct s as [|c s]; [reflexivity|].
  intros H; simpl in H; apply andb_true_iff in H as [Hc _].
  cbn [c_lstrip]; now rewrite (isdigit_not_c_space _ Hc).
Qed.

(** [int] skips nothing around a string of digits. *)
Lemma c_strip_digits (s : str) : forallb isdigit s = true -> c_strip s = s.
Proof.
  intros H; unfold c_strip.
  assert (Hr : forallb isdigit (rev s) = true).
  { apply forallb_forall; intros x Hx.
    apply in_rev in Hx.
    revert x Hx; now apply forallb_forall. }
  now rewrite (c_lstrip_digits _ H), (c_lstrip_digits _ Hr), rev_involutive.
Qed.

Lemma count_digits_all (s : str) :
  forallb isdigit s = true -> count_digits s = Z.of_nat (List.length s).
Proof.
  intros H; unfold count_digits; f_equal; f_equal.
  induction s as [|c s IH]; [reflexivity|].
  simpl in H; apply andb_true_iff in H as [Hc Hs].
  cbn [filter]; rewrite Hc; f_equal; now apply IH.
Qed.

Lemma int_digits_all (s : str) (acc : Z) (b : bool) :
  forallb isdigit s = true ->
  s <> [] ->
  int_digits s acc b
  = Some (fold_left (fun a c => (10 * a + digit_val c)%Z) s acc).
Proof.
  revert acc b; induction s as [|c s IH]; intros acc b H Hne; [congruence|].
  simpl in H; apply andb_true_iff in H as [Hc Hs].
  simpl; rewrite Hc.
  destruct s as [|c' s']; [reflexivity|].
  now apply IH.
Qed.

(** On a string of at most 4300 digits the builtin parser returns its
    decimal value. *)
Lemma py_int_digits (s : str) :
  nonneg_int_literal s = true ->
  (Z.of_nat (List.length s) <= int_max_str_digits)%Z ->
  py_int s = Some (decimal_value s).
Proof.
  unfold nonneg_int_literal; intros H Hlen.
  apply andb_true_iff in H as [Hne Hd].
  assert (Hs : s <> []) by (destruct s; [discriminate|congruence]).
  unfold py_int; cbv zeta.
  rewrite (c_strip_digits _ Hd), (count_digits_all _ Hd).
  destruct (Z.ltb_spec int_max_str_digits (Z.of_nat (List.length s)));
    [lia|].
  destruct s as [|c t]; [congruence|].
  pose proof Hd as Hd'.
  simpl in Hd'; apply andb_true_iff in Hd' as [Hc _].
  destruct (isdigit_not_sign _ Hc) as [-> ->].
  now apply int_digits_all.
Qed.

Lemma decimal_value_from (s : str) (acc : Z) :
  forallb isdigit s = true -> (0 <= acc)%Z ->
  (0 <= fold_left (fun a c => (10 * a + digit_val c)%Z) s acc)%Z.
Proof.
  revert acc; induction s as [|c s IH]; intros acc H Hacc; [exact Hacc|].
  simpl in H; apply andb_true_iff in H as [Hc Hs].
  cbn [fold_left]; apply IH; [exact Hs|].
  pose proof (digit_val_nonneg _ Hc); lia.
Qed.

Lemma decimal_value_nonneg (s : str) :
  forallb isdigit s = true -> (0 <= decimal_value s)%Z.
Proof. intros H; apply decimal_value_from; [exact H|lia]. Qed.

Lemma last_char_snoc (s : str) (c : ascii) : last_char (s ++ [c]) = Some c.
Proof. unfold last_char; now rewrite rev_app_distr. Qed.

Lemma but_last_snoc (s : str) (c : ascii) : but_last (s ++ [c]) = s.
Proof. apply removelast_last. Qed.

Lemma last_char_none (s : str) : last_char s = None -> s = [].
Proof.
  unfold last_char; intros H.
  destruct (rev s) eqn:Hr; [|discriminate].
  now rewrite <- (rev_involutive s), Hr.
Qed.

Lemma py_range_length (n : Z) : List.length (py_range n) = Z.to_nat n.
Proof. unfold py_range; now rewrite length_map, length_seq. Qed.

Lemma py_range_nth (n i : Z) :
  (0 <= i < n)%Z -> nth (Z.to_nat i) (py_range n) 0%Z = i.
Proof.
  intros Hi; unfold py_range.
  rewrite nth_indep with (d' := Z.of_nat 0)
    by (rewrite length_map, length_seq; lia).
  rewrite map_nth, seq_nth by lia.
  lia.
Qed.

End RangeFacts.

(** C3, as stated, fails when the magnitude reaches before the first
    representable date: [3000y] at the start of 2024 is 1,095,000 days
    back, and the subtraction raises [OverflowError] (a server error, no
    range is produced). *)
Lemma range_start_overflow :
  nonneg_int_literal (lit "3000") = true
  /\ range_start new_year_2024 (lit "3000y") = Raise (Uncaught OverflowError)
  /\ get_price empty_bucket (lit "NIFTY,5m,3000y") (lit "NSE") 50
     = Raise (Uncaught OverflowError).
Proof. repeat split; vm_compute; reflexivity. Qed.

(** C3 (amended): for every token [^\d+[dmy]$] of at most 4300 ASCII
    digits whose magnitude times the unit's days (d = 1, m = 30, y = 365)
    does not reach before 0001-01-01, parsing yields
    [start = now - magnitude * unitDays] days, the end of the range being
    [now] itself; so [start <= now], and the days probed run from
    [start.date()] to [now.date()] inclusive, one per day,
    [(now.date() - start.date()).days + 1 = magnitude * unitDays + 1] of
    them.  (A longer run of digits is refused by [int] and answered as a
    malformed range.) *)
Theorem range_resolved (now : datetime) (digits : str) (u : ascii) :
  nonneg_int_literal digits = true ->
  (Z.of_nat (List.length digits) <= int_max_str_digits)%Z ->
  In u ["d"; "m"; "y"]%char ->
  (ordinal now <= MAXORDINAL)%Z ->
  (MINORDINAL <= ordinal now - decimal_value digits * unit_days u)%Z ->
  let start :=
    Datetime.mk (ordinal now - decimal_value digits * unit_days u) (tod now) in
  let days := date_iter start now in
  range_start now (digits ++ [u]) = Ok start
  /\ leb start now = true
  /\ List.length days = Z.to_nat (date now - date start + 1)
  /\ Z.of_nat (List.length days) = (decimal_value digits * unit_days u + 1)%Z
  /\ (forall i, (0 <= i < date now - date start + 1)%Z ->
                nth (Z.to_nat i) days 0%Z = (date start + i)%Z)
  /\ hd_error days = Some (date start)
  /\ last days 0%Z = date now.
Proof.
  intros Hlit Hshort Hu Hmax Hmin start days.
  pose proof Hlit as Hd.
  unfold nonneg_int_literal in Hd; apply andb_true_iff in Hd as [_ Hd].
  pose proof (decimal_value_nonneg _ Hd) as Hval.
  unfold MAXORDINAL in Hmax; unfold MINORDINAL in Hmin.
  assert (Hback : (0 <= decimal_value digits * unit_days u)%Z).
  { destruct Hu as [<-|[<-|[<-|[]]]];
      [change (unit_days "d") with 1%Z | change (unit_days "m") with 30%Z
       | change (unit_days "y") with 365%Z]; lia. }
  assert (Hstart : range_start now (digits ++ [u]) = Ok start).
  { unfold range_start.
    rewrite last_char_snoc, but_last_snoc, (py_int_digits _ Hlit Hshort).
    assert (Hsub : forall n, n = (decimal_value digits * unit_days u)%Z ->
              match timedelta n with
              | Ok d => Datetime.sub now d
              | Raise f => Raise f
              end = Ok start).
    { intros n ->; unfold timedelta, MAXDELTADAYS.
      destruct (Z.leb_spec (Z.abs (decimal_value digits * unit_days u)) 999999999);
        [|lia].
      unfold Datetime.sub, MINORDINAL, MAXORDINAL.
      destruct (Z.leb_spec 1 (ordinal now - decimal_value digits * unit_days u));
        [|lia].
      destruct (Z.leb_spec (ordinal now - decimal_value digits * unit_days u)
                           3652059); [|lia].
      reflexivity. }
    destruct Hu as [<-|[<-|[<-|[]]]];
      [change (unit_days "d") with 1%Z in *
      |change (unit_days "m") with 30%Z in *
      |change (unit_days "y") with 365%Z in *];
      repeat match goal with
             | |- context [Ascii.eqb (lower_char ?a) ?b] =>
                 let v := eval vm_compute in (Ascii.eqb (lower_char a) b) in
                 change (Ascii.eqb (lower_char a) b) with v; cbv iota
             end;
      apply Hsub; lia. }
  assert (Hlen : List.length days = Z.to_nat (date now - date start + 1)).
  { unfold days, date_iter; now rewrite length_map, py_range_length. }
  split; [exact Hstart|].
  split.
  { unfold leb, start; cbn [ordinal tod].
    destruct (Z.ltb_spec (ordinal now - decimal_value digits * unit_days u)
                         (ordinal now)); [reflexivity|].
    replace (ordinal now - decimal_value digits * unit_days u)%Z
      with (ordinal now) by lia.
    now rewrite Z.eqb_refl, Z.leb_refl. }
  split; [exact Hlen|].
  split.
  { rewrite Hlen; unfold date, start; cbn [ordinal]; lia. }
  assert (Hnth : forall i, (0 <= i < date now - date start + 1)%Z ->
                           nth (Z.to_nat i) days 0%Z = (date start + i)%Z).
  { intros i Hi; unfold days, date_iter.
    rewrite nth_indep with (d' := (date start + 0)%Z)
      by (rewrite length_map, py_range_length; lia).
    rewrite (map_nth (fun i => (date start + i)%Z)).
    now rewrite py_range_nth. }
  assert (Hspan : (date now - date start
                   = decimal_value digits * unit_days u)%Z)
    by (unfold date, start; cbn [ordinal]; lia).
  assert (Hlen' : List.length days = S (Z.to_nat (date now - date start)))
    by (rewrite Hlen; lia).
  split; [exact Hnth|].
  split.
  - pose proof (Hnth 0%Z ltac:(lia)) as H0.
    destruct days as [|d0 ds]; [discriminate Hlen'|].
    cbn [nth Z.to_nat] in H0; cbn [hd_error]; f_equal; lia.
  - destruct (exists_last (l := days)) as (ds & dn & Hds).
    { intros Hnil; rewrite Hnil in Hlen'; discriminate Hlen'. }
    rewrite Hds, last_last.
    pose proof (Hnth (date now - date start)%Z ltac:(lia)) as Hn.
    rewrite Hds in Hn, Hlen'.
    rewrite length_app in Hlen'; cbn [List.length] in Hlen'.
    rewrite app_nth2 in Hn by lia.
    replace (Z.to_nat (date now - date start) - List.length ds)%nat with 0%nat
      in Hn by lia.
    cbn [nth] in Hn; lia.
Qed.

Lemma range_resolved_witness :
  range_start new_year_2024 (lit "2y") = Ok (Datetime.mk 738156 0)
  /\ List.length (date_iter (Datetime.mk 738156 0) new_year_2024) = 731%nat.
Proof.
  destruct (range_resolved new_year_2024 (lit "2") "y"%char)
    as (Hstart & _ & Hlen & _ & _ & _ & _);
    [reflexivity | vm_compute; discriminate | simpl; auto
     | vm_compute; discriminate | vm_compute; discriminate |].
  split; [exact Hstart | exact Hlen].
Defined.

(** C4, as stated, fails for a signed prefix: [-5] is not a non-negative
    integer, yet the parser accepts it, the range is taken to start five
    days ahead, no day is probed and the query ends in "not found". *)
Lemma negative_magnitude_is_accepted :
  nonneg_int_literal (lit "-5") = false
  /\ py_int (lit "-5") = Some (-5)%Z
  /\ get_price empty_bucket (lit "CIPLA,15m,-5d") (lit "NSE") 50
     = Raise NoDataFound.
Proof. repeat split; vm_compute; reflexivity. Qed.

(** C4 (amended): for every request in ASCII text with a non-empty
    range token whose part before the final character is rejected by the
    integer parser [int] (as [abc] in [abcd] is; a run of digits is
    rejected only when it is longer than 4300), the request fails with
    [MalformedRange], status 400, and the store has not been accessed. *)
Theorem malformed_range_rejected
        (E : env) (params exchange : str) (max_files : Z) (sym tf rng : str) :
  is_ascii params = true ->
  map strip (split params ",") = [sym; tf; rng] ->
  rng <> [] ->
  py_int (but_last rng) = None ->
  get_price_run E params exchange max_files init = (Raise MalformedRange, init)
  /\ get_price E params exchange max_files
     = Raise (HTTPException 400 (lit "Range malformed, use e.g. 1d,7d,3m,1y"))
  /\ (nonneg_int_literal (but_last rng) = true ->
      (int_max_str_digits < Z.of_nat (List.length (but_last rng)))%Z).
Proof.
  intros _ Hparts Hne Hint.
  assert (Hrun : get_price_run E params exchange max_files init
                 = (Raise MalformedRange, init)).
  { unfold get_price_run; rewrite Hparts.
    unfold bind, lift, range_start.
    destruct (last_char rng) eqn:Hl.
    - now rewrite Hint.
    - now apply last_char_none in Hl. }
  split; [exact Hrun|].
  split.
  - unfold get_price; now rewrite Hrun.
  - intros Hlit.
    destruct (Z.lt_ge_cases int_max_str_digits
                (Z.of_nat (List.length (but_last rng)))) as [Hlong|Hshort];
      [exact Hlong|].
    rewrite (py_int_digits _ Hlit Hshort) in Hint; discriminate Hint.
Qed.

Lemma malformed_range_rejected_witness :
  get_price empty_bucket (lit "CIPLA,15m,abcd") (lit "NSE") 50
  = Raise MalformedRange.
Proof.
  apply (malformed_range_rejected empty_bucket (lit "CIPLA,15m,abcd") (lit "NSE")
           50 (lit "CIPLA") (lit "15m") (lit "abcd"));
    [reflexivity | reflexivity | discriminate | reflexivity].
Defined.

(** C10: when the third comma-separated token is empty the token count
    is accepted and reading the unit character raises an [IndexError] that
    no handler catches: neither [MalformedRange] nor [UnknownRangeUnit] is
    reported, and the store is not accessed.  A non-empty token never
    raises it. *)
Theorem empty_range_token_index_error
        (E : env) (params exchange : str) (max_files : Z) (sym tf : str) :
  map strip (split params ",") = [sym; tf; []] ->
  get_price_run E params exchange max_files init
  = (Raise (Uncaught IndexError), init)
  /\ get_price E params exchange max_files <> Raise MalformedRange
  /\ get_price E params exchange max_files <> Raise UnknownRangeUnit
  /\ (forall now rng, rng <> [] ->
                      range_start now rng <> Raise (Uncaught IndexError)).
Proof.
  intros Hparts.
  assert (Hrun : get_price_run E params exchange max_files init
                 = (Raise (Uncaught IndexError), init)).
  { unfold get_price_run; now rewrite Hparts. }
  split; [exact Hrun|].
  unfold get_price; rewrite Hrun; cbn [fst].
  split; [discriminate|].
  split; [discriminate|].
  intros now rng Hne; unfold range_start.
  destruct (last_char rng) eqn:Hl; [|now apply last_char_none in Hl].
  destruct (py_int (but_last rng)); [|discriminate].
  unfold timedelta, Datetime.sub.
  repeat match goal with
         | |- context [if ?b then _ else _] => destruct b
         end; discriminate.
Qed.

Lemma empty_range_token_index_error_witness :
  get_price_run empty_bucket (lit "CIPLA,15m,") (lit "NSE") 50 init
  = (Raise (Uncaught IndexError), init).
Proof.
  apply (empty_range_token_index_error empty_bucket (lit "CIPLA,15m,") (lit "NSE")
           50 (lit "CIPLA") (lit "15m")).
  reflexivity.
Defined.

(** ** Calendar dates and prefixes *)

Section CalendarFacts.

Lemma all_from_spec (fuel : nat) (i : Z) (P : Z -> bool) :
  all_from fuel i P = true ->
  forall k, (i <= k < i + Z.of_nat fuel)%Z -> P k = true.
Proof.
  revert i; induction fuel as [|fuel IH]; intros i H k Hk; [lia|].
  cbn [all_from] in H; apply andb_true_iff in H as [Hi Hrest].
  destruct (Z.eq_dec k i) as [->|Hne]; [exact Hi|].
  apply (IH (i + 1)%Z Hrest); lia.
Qed.

(** Month and day only depend on the position in the 400-year cycle. *)
Lemma month_day_periodic (n : Z) :
  (month n, day n) = month_day_in_cycle ((n - 1) mod DI400Y).
Proof.
  unfold month_day_in_cycle, month, day, ord2ymd.
  replace ((n - 1) mod DI400Y + 1 - 1)%Z with ((n - 1) mod DI400Y)%Z by lia.
  rewrite Z.mod_mod by (unfold DI400Y; lia).
  set (r := ((n - 1) mod DI400Y)%Z).
  destruct ((r mod DI100Y mod DI4Y / 365 =? 4) || (r / DI100Y =? 4))%Z;
    [reflexivity|].
  match goal with |- context [if ?b then _ else _] => destruct b end;
    reflexivity.
Qed.

Lemma cycle_months_days :
  all_from (Z.to_nat 146097) 0
           (fun r => valid_month_day (month_day_in_cycle r)) = true.
Proof. vm_compute; reflexivity. Qed.

Lemma month_day_bounds (n : Z) :
  (1 <= month n <= 12)%Z /\ (1 <= day n <= 31)%Z.
Proof.
  pose proof (all_from_spec _ _ _ cycle_months_days ((n - 1) mod DI400Y)) as H.
  cbv beta in H.
  rewrite <- month_day_periodic in H.
  assert (Hr : (0 <= (n - 1) mod DI400Y < 0 + Z.of_nat (Z.to_nat 146097))%Z).
  { pose proof (Z.mod_pos_bound (n - 1) DI400Y).
    unfold DI400Y in *; lia. }
  specialize (H Hr); unfold valid_month_day in H; cbn [fst snd] in H.
  repeat (apply andb_true_iff in H as [H ?]).
  lia.
Qed.

Lemma fmt_02d_all : all_from 100 0 (fun z => two_digits (fmt_02d z)) = true.
Proof. vm_compute; reflexivity. Qed.

Lemma fmt_02d_two_digits (z : Z) :
  (0 <= z < 100)%Z -> two_digits (fmt_02d z) = true.
Proof. intros Hz; apply (all_from_spec _ _ _ fmt_02d_all z); lia. Qed.

Lemma format_plain (tf ex sym : str) (d : Z) :
  format_prefix (nth 0 prefixes_to_try_template []) tf ex sym d
  = Some (partition_prefix (lit "=") tf ex sym d).
Proof.
  unfold format_prefix, partition_prefix.
  generalize (year d) (month d) (day d); intros Y m dd.
  vm_compute; reflexivity.
Qed.

Lemma format_encoded (tf ex sym : str) (d : Z) :
  format_prefix (nth 1 prefixes_to_try_template []) tf ex sym d
  = Some (partition_prefix (lit "%3D") tf ex sym d).
Proof.
  unfold format_prefix, partition_prefix.
  generalize (year d) (month d) (day d); intros Y m dd.
  vm_compute; reflexivity.
Qed.

End CalendarFacts.

(** ** The traversal and its budget *)

Section BudgetFacts.

Variable E : env.
Variable max_files : Z.

Lemma bind_run {A B : Type} (m : M A) (k : A -> M B) (st : state) :
  bind m k st
  = match m st with
    | (Ok a, st') => k a st'
    | (Raise f, st') => (Raise f, st')
    end.
Proof. reflexivity. Qed.

Lemma within_budget_emit (e : event) (st : state) :
  (forall k, e <> Decoded k) ->
  within_budget max_files st ->
  (files_read st < max_files)%Z ->
  within_budget max_files (snd (emit e st)).
Proof.
  intros He (Hle & Htr & Hrows) Hlt; unfold emit; cbn [snd].
  repeat split; cbn [files_read trace rows]; try assumption.
  apply Forall_app; split; [exact Htr|].
  constructor; [|constructor].
  unfold event_in_budget; cbn [fst snd].
  destruct e; try exact Hlt.
  now destruct (He key0).
Qed.

Lemma within_budget_append (k : str) (df : DataFrame) (st : state) :
  within_budget max_files st ->
  (files_read st < max_files)%Z ->
  within_budget max_files (snd (append_row k df st)).
Proof.
  intros (Hle & Htr & Hrows) Hlt; unfold append_row; cbn [snd].
  repeat split; cbn [files_read trace rows]; [lia| |].
  - apply Forall_app; split; [exact Htr|].
    constructor; [|constructor].
    unfold event_in_budget; cbn [fst snd]; lia.
  - rewrite length_app; cbn [List.length]; lia.
Qed.

Lemma for_objects_budget (objs : list obj) (st : state) :
  within_budget max_files st ->
  within_budget max_files (snd (for_objects E max_files objs st)).
Proof.
  revert st; induction objs as [|o rest IH]; intros st H; [exact H|].
  cbn [for_objects].
  destruct (negb (endswith (lower (Key o)) (lit ".parquet"))); [now apply IH|].
  unfold bind at 1, get_files_read.
  destruct (Z.leb_spec max_files (files_read st)) as [Hge|Hlt]; [exact H|].
  unfold bind at 1.
  pose proof (within_budget_emit (GetObject (Key o)) st
                ltac:(discriminate) H Hlt) as H1.
  destruct (emit (GetObject (Key o)) st) as [[[]|f] st1] eqn:He;
    cbn [snd] in H1; [|exact H1].
  assert (Hn : files_read st1 = files_read st)
    by (unfold emit in He; now inversion He).
  unfold bind at 1, lift.
  destruct (from_s3 (get_object E (Key o))) as [b|f]; [|exact H1].
  destruct (read_parquet_bytes E b) as [df|f].
  - unfold bind at 1.
    pose proof (within_budget_append (Key o) df st1 H1 ltac:(lia)) as H2.
    destruct (append_row (Key o) df st1) as [[[]|f] st2]; cbn [snd] in H2;
      [now apply IH | exact H2].
  - unfold bind at 1.
    pose proof (within_budget_emit (PrintSkip (Key o)) st1
                  ltac:(discriminate) H1 ltac:(lia)) as H2.
    destruct (emit (PrintSkip (Key o)) st1) as [[[]|f'] st2]; cbn [snd] in H2;
      [now apply IH | exact H2].
Qed.

Lemma for_pages_budget (prefix : str) (pages : list (s3_error + page))
      (st : state) :
  within_budget max_files st ->
  (files_read st < max_files)%Z ->
  within_budget max_files (snd (for_pages E max_files prefix pages st)).
Proof.
  revert st; induction pages as [|p rest IH]; intros st H Hlt; [exact H|].
  cbn [for_pages].
  unfold bind at 1.
  pose proof (within_budget_emit (ListPage prefix) st
                ltac:(discriminate) H Hlt) as H1.
  destruct (emit (ListPage prefix) st) as [[[]|f] st1]; cbn [snd] in H1;
    [|exact H1].
  unfold bind at 1, lift.
  destruct (from_s3 p) as [pg|f]; [|exact H1].
  unfold bind at 1.
  pose proof (for_objects_budget
                (match Contents pg with Some c => c | None => [] end) st1 H1)
    as H2.
  destruct (for_objects E max_files _ st1) as [[[]|f] st2]; cbn [snd] in H2;
    [|exact H2].
  unfold bind at 1, get_files_read.
  destruct (Z.leb_spec max_files (files_read st2)); [exact H2|].
  now apply IH.
Qed.

Lemma for_templates_budget (tf ex sym : str) (d : Z) (templates : list str)
      (st : state) :
  within_budget max_files st ->
  (files_read st < max_files)%Z ->
  within_budget max_files
    (snd (for_templates E max_files tf ex sym d templates st)).
Proof.
  revert st; induction templates as [|t rest IH]; intros st H Hlt; [exact H|].
  cbn [for_templates].
  destruct (format_prefix t tf ex sym d) as [prefix|]; [|exact H].
  unfold bind at 1.
  pose proof (within_budget_emit (Paginate prefix) st
                ltac:(discriminate) H Hlt) as H1.
  destruct (emit (Paginate prefix) st) as [[[]|f] st1] eqn:He;
    cbn [snd] in H1; [|exact H1].
  assert (Hn : files_read st1 = files_read st)
    by (unfold emit in He; now inversion He).
  unfold bind at 1.
  pose proof (for_pages_budget prefix (paginate E prefix) st1 H1 ltac:(lia))
    as H2.
  destruct (for_pages E max_files prefix _ st1) as [[[]|f] st2];
    cbn [snd] in H2; [|exact H2].
  unfold bind at 1, get_files_read.
  destruct (Z.leb_spec max_files (files_read st2)); [exact H2|].
  now apply IH.
Qed.

Lemma for_days_budget (tf ex sym : str) (days : list Z) (st : state) :
  within_budget max_files st ->
  (files_read st < max_files)%Z ->
  within_budget max_files (snd (for_days E max_files tf ex sym days st)).
Proof.
  revert st; induction days as [|d rest IH]; intros st H Hlt; [exact H|].
  cbn [for_days].
  unfold bind at 1.
  pose proof (for_templates_budget tf ex sym d prefixes_to_try_template st H Hlt)
    as H1.
  destruct (for_templates E max_files tf ex sym d _ st) as [[[]|f] st1];
    cbn [snd] in H1; [|exact H1].
  unfold bind at 1, get_files_read.
  destruct (Z.leb_spec max_files (files_read st1)); [exact H1|].
  now apply IH.
Qed.

(** After the traversal nothing touches the state any more. *)
Lemma get_price_run_state (params exchange : str) :
  snd (get_price_run E params exchange max_files init) = init
  \/ exists tf sym start,
      snd (get_price_run E params exchange max_files init)
      = snd (for_days E max_files tf exchange sym
                      (date_iter start (utcnow E)) init).
Proof.
  unfold get_price_run.
  destruct (map strip (split params ",")) as [|sym [|tf [|rng [|x l]]]];
    try (left; reflexivity).
  rewrite bind_run; unfold lift; cbv beta iota.
  destruct (range_start (utcnow E) rng) as [start|f]; [|left; reflexivity].
  right; exists tf, (normalize_symbol_for_bucket sym exchange), start.
  rewrite bind_run.
  destruct (for_days E max_files tf exchange _ _ init) as [[[]|f] st1];
    [|reflexivity].
  rewrite bind_run; unfold get_rows; cbv beta iota.
  destruct (rows st1) as [|df rows']; [reflexivity|].
  rewrite bind_run.
  destruct (filter_between E candidates _ _ _); reflexivity.
Qed.

End BudgetFacts.

(** C1: with a positive budget [max_files], the counter [files_read] of
    a range query is at most [max_files] after every increment and at the
    end, where it equals the number of decoded tables; and everything else
    the traversal does (starting the listing of a day's prefix, requesting
    a page, fetching an object, reporting a skipped one) happened while the
    counter was still below the budget: once the budget is reached no
    further object is fetched, no further page is requested and no further
    key style or day is listed, whatever else the bucket holds. *)
Theorem budget_never_exceeded
        (E : env) (params exchange : str) (max_files : Z) :
  (0 < max_files)%Z ->
  let st := snd (get_price_run E params exchange max_files init) in
  (files_read st <= max_files)%Z
  /\ Forall (event_in_budget max_files) (trace st)
  /\ Z.of_nat (List.length (rows st)) = files_read st.
Proof.
  intros Hpos st.
  assert (Hinit : within_budget max_files init).
  { repeat split; cbn; [lia|constructor]. }
  change (within_budget max_files st).
  destruct (get_price_run_state E max_files params exchange)
    as [Hst|(tf & sym & start & Hst)]; unfold st; rewrite Hst.
  - exact Hinit.
  - apply for_days_budget; [exact Hinit|exact Hpos].
Qed.

Lemma budget_never_exceeded_witness :
  let st := snd (get_price_run busy_bucket (lit "CIPLA,15m,7d") (lit "NSE") 2
                               init) in
  (files_read st <= 2)%Z
  /\ Forall (event_in_budget 2) (trace st)
  /\ Z.of_nat (List.length (rows st)) = files_read st.
Proof.
  apply (budget_never_exceeded busy_bucket (lit "CIPLA,15m,7d") (lit "NSE") 2).
  reflexivity.
Defined.

(** In the busy bucket eight days and two key styles hold 48 parquet
    objects; a budget of two stops on the first page of the first prefix. *)
Example busy_bucket_stops_at_two :
  let st := snd (get_price_run busy_bucket (lit "CIPLA,15m,7d") (lit "NSE") 2
                               init) in
  files_read st = 2%Z
  /\ trace st
     = [ (Paginate (lit "processed/timeframe=15m/exchange=NSE/symbol=NSE_CIPLA-EQ/year=2023/month=12/day=25/"), 0%Z);
         (ListPage (lit "processed/timeframe=15m/exchange=NSE/symbol=NSE_CIPLA-EQ/year=2023/month=12/day=25/"), 0%Z);
         (GetObject (lit "processed/timeframe=15m/exchange=NSE/symbol=NSE_CIPLA-EQ/year=2023/month=12/day=25/part-0.parquet"), 0%Z);
         (Decoded (lit "processed/timeframe=15m/exchange=NSE/symbol=NSE_CIPLA-EQ/year=2023/month=12/day=25/part-0.parquet"), 1%Z);
         (GetObject (lit "processed/timeframe=15m/exchange=NSE/symbol=NSE_CIPLA-EQ/year=2023/month=12/day=25/part-1.PARQUET"), 1%Z);
         (Decoded (lit "processed/timeframe=15m/exchange=NSE/symbol=NSE_CIPLA-EQ/year=2023/month=12/day=25/part-1.PARQUET"), 2%Z) ].
Proof. vm_compute; split; reflexivity. Qed.

(** ** Decode errors *)

Section DecodeFacts.

Variable E : env.
Variable max_files : Z.

Lemma from_s3_no_decode {A : Type} (r : s3_error + A) :
  ~ raises_decode (from_s3 r).
Proof. destruct r as [[]|a]; cbn; intuition discriminate. Qed.

Lemma range_start_no_decode (now : datetime) (rng : str) :
  ~ raises_decode (range_start now rng).
Proof.
  unfold range_start.
  destruct (last_char rng); [|cbn; discriminate].
  destruct (py_int (but_last rng)); [|cbn; discriminate].
  unfold timedelta, Datetime.sub.
  repeat match goal with
         | |- context [if ?b then _ else _] => destruct b
         end; cbn; intuition discriminate.
Qed.

(** A comparison of a column with a bound fails with [TypeError] only. *)
Lemma series_cmp_failure (op : Z -> Z -> bool) (aware : bool)
      (col : list value) (bound : value) (f : failure) :
  series_cmp op aware col bound = Raise f -> f = Uncaught TypeError.
Proof.
  unfold series_cmp.
  destruct bound as [| | |b t| |]; try (intros H; now injection H as <-).
  destruct (Bool.eqb aware b); [discriminate|intros H; now injection H as <-].
Qed.

Lemma filter_between_no_decode (cands : list str) (big : DataFrame)
      (lo hi : value) :
  ~ raises_decode (filter_between E cands big lo hi).
Proof.
  induction cands as [|c cands IH]; cbn [filter_between]; [cbn; tauto|].
  destruct (in_columns c big); [|exact IH].
  cbv zeta.
  destruct (series_cmp Z.geb _ _ lo) as [ge|f] eqn:Hge.
  - destruct (series_cmp Z.leb _ _ hi) as [le|f] eqn:Hle; [cbn; tauto|].
    apply series_cmp_failure in Hle; subst f; cbn; discriminate.
  - apply series_cmp_failure in Hge; subst f; cbn; discriminate.
Qed.

Lemma for_objects_no_decode (objs : list obj) (st : state) :
  ~ raises_decode (fst (for_objects E max_files objs st)).
Proof.
  revert st; induction objs as [|o rest IH]; intros st; [cbn; tauto|].
  cbn [for_objects].
  destruct (negb (endswith (lower (Key o)) (lit ".parquet"))); [apply IH|].
  rewrite bind_run; unfold get_files_read; cbv beta iota.
  destruct (max_files <=? files_read st)%Z; [cbn; tauto|].
  rewrite bind_run; unfold emit; cbv beta iota.
  rewrite bind_run; unfold lift; cbv beta.
  pose proof (from_s3_no_decode (get_object E (Key o))) as Hs3.
  destruct (from_s3 (get_object E (Key o))) as [b|f]; [|exact Hs3].
  cbv iota.
  destruct (read_parquet_bytes E b) as [df|f];
    rewrite bind_run; [unfold append_row|]; cbv beta iota; apply IH.
Qed.

Lemma for_pages_no_decode (prefix : str) (pages : list (s3_error + page))
      (st : state) :
  ~ raises_decode (fst (for_pages E max_files prefix pages st)).
Proof.
  revert st; induction pages as [|p rest IH]; intros st; [cbn; tauto|].
  cbn [for_pages].
  rewrite bind_run; unfold emit; cbv beta iota.
  rewrite bind_run; unfold lift; cbv beta.
  pose proof (from_s3_no_decode p) as Hs3.
  destruct (from_s3 p) as [pg|f]; [|exact Hs3].
  cbv iota; rewrite bind_run.
  match goal with
  | |- context [for_objects E max_files ?objs ?s] =>
      pose proof (for_objects_no_decode objs s) as Ho;
      destruct (for_objects E max_files objs s) as [[[]|f] st2]
  end; [|exact Ho].
  rewrite bind_run; unfold get_files_read; cbv beta iota.
  destruct (max_files <=? files_read st2)%Z; [cbn; tauto|apply IH].
Qed.

Lemma for_templates_no_decode (tf ex sym : str) (d : Z)
      (templates : list str) (st : state) :
  ~ raises_decode (fst (for_templates E max_files tf ex sym d templates st)).
Proof.
  revert st; induction templates as [|t rest IH]; intros st; [cbn; tauto|].
  cbn [for_templates].
  destruct (format_prefix t tf ex sym d) as [prefix|]; [|cbn; discriminate].
  rewrite bind_run; unfold emit; cbv beta iota.
  rewrite bind_run.
  match goal with
  | |- context [for_pages E max_files prefix ?pages ?s] =>
      pose proof (for_pages_no_decode prefix pages s) as Hp;
      destruct (for_pages E max_files prefix pages s) as [[[]|f] st2]
  end; [|exact Hp].
  rewrite bind_run; unfold get_files_read; cbv beta iota.
  destruct (max_files <=? files_read st2)%Z; [cbn; tauto|apply IH].
Qed.

Lemma for_days_no_decode (tf ex sym : str) (days : list Z) (st : state) :
  ~ raises_decode (fst (for_days E max_files tf ex sym days st)).
Proof.
  revert st; induction days as [|d rest IH]; intros st; [cbn; tauto|].
  cbn [for_days].
  rewrite bind_run.
  pose proof (for_templates_no_decode tf ex sym d prefixes_to_try_template st)
    as Ht.
  destruct (for_templates E max_files tf ex sym d prefixes_to_try_template st)
    as [[[]|f] st1]; [|exact Ht].
  rewrite bind_run; unfold get_files_read; cbv beta iota.
  destruct (max_files <=? files_read st1)%Z; [cbn; tauto|apply IH].
Qed.

Lemma get_price_no_decode (params exchange : str) :
  ~ raises_decode (get_price E params exchange max_files).
Proof.
  unfold get_price, get_price_run.
  destruct (map strip (split params ",")) as [|sym [|tf [|rng [|x l]]]];
    try (cbn; discriminate).
  rewrite bind_run; unfold lift; cbv beta.
  pose proof (range_start_no_decode (utcnow E) rng) as Hr.
  destruct (range_start (utcnow E) rng) as [start|f]; [|exact Hr].
  cbv iota; rewrite bind_run.
  match goal with
  | |- context [for_days E max_files ?a ?b ?c ?d ?s] =>
      pose proof (for_days_no_decode a b c d s) as Hd;
      destruct (for_days E max_files a b c d s) as [[[]|f] st1]
  end; [|exact Hd].
  rewrite bind_run; unfold get_rows; cbv beta iota.
  destruct (rows st1) as [|df rows']; [cbn; discriminate|].
  rewrite bind_run.
  match goal with
  | |- context [filter_between E ?c ?b ?lo ?hi] =>
      pose proof (filter_between_no_decode c b lo hi) as Hf;
      destruct (filter_between E c b lo hi) as [big|f]
  end; [cbn; tauto|exact Hf].
Qed.

End DecodeFacts.

(** C2, as stated, fails on the direct-key path: [get_by_key] decodes the
    object outside any handler, so a corrupt object surfaces to the caller
    as an unhandled decode error. *)
Lemma get_by_key_decode_error_surfaces :
  get_object corrupt_bucket (lit "k.parquet") = inr [Byte.x00]
  /\ pq_read_table corrupt_bucket [Byte.x00] = None
  /\ get_by_key corrupt_bucket (lit "k.parquet") = Raise (Uncaught ArrowInvalid).
Proof. repeat split. Qed.

(** C2 (amended): on the range-query path a decode error is recovered
    where it occurs.  When an object with a parquet key is reached below
    the budget and its bytes do not decode, the traversal goes on with the
    remaining objects from a state in which [rows] and [files_read] are
    unchanged and the fetch and the "skip" diagnostic for that key have
    been recorded; the range query never fails with a decode error; and a
    batch of one corrupt and four valid files returns the rows of the four
    valid files. *)
Theorem decode_error_recovered
        (E : env) (max_files : Z) (o : obj) (rest : list obj) (st : state)
        (b : list Byte.byte) :
  endswith (lower (Key o)) (lit ".parquet") = true ->
  (files_read st < max_files)%Z ->
  get_object E (Key o) = inr b ->
  pq_read_table E b = None ->
  for_objects E max_files (o :: rest) st
  = for_objects E max_files rest
      (mkState (rows st) (files_read st)
               (trace st ++ [(GetObject (Key o), files_read st);
                             (PrintSkip (Key o), files_read st)]))
  /\ (forall params exchange,
         ~ raises_decode (get_price E params exchange max_files))
  /\ get_price mixed_bucket (lit "CIPLA,15m,1d") (lit "NSE") 50
     = Ok (mkPrice (lit "CIPLA") (lit "NSE_CIPLA-EQ") (lit "15m") (lit "1d") 4
                   [ [(lit "close", Int 0)]; [(lit "close", Int 1)];
                     [(lit "close", Int 3)]; [(lit "close", Int 4)] ]).
Proof.
  intros Hkey Hlt Hget Hdec.
  split; [|split].
  - cbn [for_objects]; rewrite Hkey; cbn [negb].
    rewrite bind_run; unfold get_files_read; cbv beta iota.
    destruct (Z.leb_spec max_files (files_read st)) as [Hge|_]; [lia|].
    rewrite bind_run; unfold emit at 1; cbv beta iota.
    rewrite bind_run; unfold lift; cbv beta.
    rewrite Hget; cbn [from_s3]; cbv iota.
    unfold read_parquet_bytes; rewrite Hdec.
    rewrite bind_run; unfold emit; cbn [rows files_read trace].
    now rewrite <- app_assoc.
  - intros params exchange; apply get_price_no_decode.
  - vm_compute; reflexivity.
Qed.

Lemma decode_error_recovered_witness :
  let key := cipla_day ++ lit "part-2.parquet" in
  for_objects mixed_bucket 50 [mkObj key; mkObj (cipla_day ++ lit "part-3.parquet")]
              init
  = for_objects mixed_bucket 50 [mkObj (cipla_day ++ lit "part-3.parquet")]
      (mkState [] 0 [(GetObject key, 0%Z); (PrintSkip key, 0%Z)]).
Proof.
  apply (decode_error_recovered mixed_bucket 50
           (mkObj (cipla_day ++ lit "part-2.parquet"))
           [mkObj (cipla_day ++ lit "part-3.parquet")] init [Byte.x32]);
    reflexivity.
Defined.

(** ** Assembly *)

Section AssemblyFacts.

Variable E : env.
Variable max_files : Z.

(** What [get_price] returns once the range is parsed and the traversal
    has ended normally in state [st]. *)
Lemma get_price_after_traversal
      (params exchange sym tf rng : str) (start : datetime) (st : state) :
  map strip (split params ",") = [sym; tf; rng] ->
  range_start (utcnow E) rng = Ok start ->
  for_days E max_files tf exchange (normalize_symbol_for_bucket sym exchange)
           (date_iter start (utcnow E)) init = (Ok tt, st) ->
  get_price_run E params exchange max_files init
  = match rows st with
    | [] => (Raise NoDataFound, st)
    | _ :: _ =>
        match filter_between E candidates (concat (rows st))
                             (to_timestamp start) (to_timestamp (utcnow E)) with
        | Ok big =>
            (Ok (mkPrice sym (normalize_symbol_for_bucket sym exchange) tf rng
                         (len big) (to_dict big)), st)
        | Raise f => (Raise f, st)
        end
    end.
Proof.
  intros Hparts Hstart Hdays.
  unfold get_price_run; rewrite Hparts.
  rewrite bind_run; unfold lift; cbv beta; rewrite Hstart; cbv iota.
  rewrite bind_run, Hdays.
  rewrite bind_run; unfold get_rows; cbv beta iota.
  destruct (rows st) as [|df rows']; [reflexivity|].
  rewrite bind_run.
  destruct (filter_between E candidates _ _ _); reflexivity.
Qed.

(** A successful range query has decoded at least one table. *)
Lemma get_price_ok_rows (params exchange : str) (resp : price_response) :
  get_price E params exchange max_files = Ok resp ->
  rows (snd (get_price_run E params exchange max_files init)) <> [].
Proof.
  unfold get_price, get_price_run.
  destruct (map strip (split params ",")) as [|sym [|tf [|rng [|x l]]]];
    try discriminate.
  rewrite bind_run; unfold lift; cbv beta.
  destruct (range_start (utcnow E) rng) as [start|f]; [|discriminate].
  cbv iota; rewrite bind_run.
  destruct (for_days E max_files tf exchange _ _ init) as [[[]|f] st1];
    [|discriminate].
  rewrite bind_run; unfold get_rows; cbv beta iota.
  destruct (rows st1) as [|df rows'] eqn:Hrows; [discriminate|].
  rewrite bind_run.
  destruct (filter_between E candidates _ _ _); [|discriminate].
  cbn [snd ret]; intros _; rewrite Hrows; discriminate.
Qed.

End AssemblyFacts.

(** C7 (amended): on the listing path, when the traversal of all days
    and both key styles ends with no decoded table, the query fails with
    [NoDataFound] (status 404) and with nothing else; and a query that
    succeeds has decoded at least one table (whose rows may be none). *)
Theorem no_tables_not_found
        (E : env) (max_files : Z)
        (params exchange sym tf rng : str) (start : datetime) (st : state) :
  map strip (split params ",") = [sym; tf; rng] ->
  range_start (utcnow E) rng = Ok start ->
  for_days E max_files tf exchange (normalize_symbol_for_bucket sym exchange)
           (date_iter start (utcnow E)) init = (Ok tt, st) ->
  rows st = [] ->
  get_price E params exchange max_files
  = Raise (HTTPException 404 (lit "No parquet files found for query."))
  /\ (forall E' max_files' params' exchange' resp,
         get_price E' params' exchange' max_files' = Ok resp ->
         rows (snd (get_price_run E' params' exchange' max_files' init)) <> []).
Proof.
  intros Hparts Hstart Hdays Hrows; split.
  - unfold get_price.
    rewrite (get_price_after_traversal E max_files params exchange sym tf rng
               start st Hparts Hstart Hdays), Hrows.
    reflexivity.
  - intros E' max_files' params' exchange' resp.
    apply get_price_ok_rows.
Qed.

Lemma no_tables_not_found_witness :
  get_price empty_bucket (lit "CIPLA,15m,1d") (lit "NSE") 50 = Raise NoDataFound.
Proof.
  apply (no_tables_not_found empty_bucket 50 (lit "CIPLA,15m,1d") (lit "NSE")
           (lit "CIPLA") (lit "15m") (lit "1d") (Datetime.mk 738885 0)
           (snd (for_days empty_bucket 50 (lit "15m") (lit "NSE")
                          (lit "NSE_CIPLA-EQ") [738885; 738886]%Z init)));
    reflexivity.
Defined.

(** C7, as stated, fails: a listing query can succeed with an empty
    result.  Here the one decoded table has no rows, and the answer is a
    success with [rows_returned = 0] and no data. *)
Example hollow_bucket_succeeds_without_rows :
  get_price hollow_bucket (lit "CIPLA,15m,1d") (lit "NSE") 50
  = Ok (mkPrice (lit "CIPLA") (lit "NSE_CIPLA-EQ") (lit "15m") (lit "1d") 0 []).
Proof. vm_compute; reflexivity. Qed.

(** ** The order of probing *)

Section ProbeFacts.

Variable E : env.
Variable max_files : Z.

Lemma is_prefix_nil {A : Type} (full : list A) : is_prefix [] full.
Proof. now exists full. Qed.

Lemma is_prefix_refl {A : Type} (l : list A) : is_prefix l l.
Proof. exists []; now rewrite app_nil_r. Qed.

Lemma is_prefix_app_r {A : Type} (l full more : list A) :
  is_prefix l full -> is_prefix l (full ++ more).
Proof. intros [rest ->]; exists (rest ++ more); now rewrite app_assoc. Qed.

Lemma is_prefix_app_l {A : Type} (h l full : list A) :
  is_prefix l full -> is_prefix (h ++ l) (h ++ full).
Proof. intros [rest ->]; exists rest; now rewrite app_assoc. Qed.

Lemma probes_app (a b : list (event * Z)) :
  probes (a ++ b) = probes a ++ probes b.
Proof. apply flat_map_app. Qed.

Lemma for_objects_probes (objs : list obj) (st : state) :
  probes (trace (snd (for_objects E max_files objs st))) = probes (trace st).
Proof.
  revert st; induction objs as [|o rest IH]; intros st; [reflexivity|].
  cbn [for_objects].
  destruct (negb (endswith (lower (Key o)) (lit ".parquet"))); [apply IH|].
  rewrite bind_run; unfold get_files_read; cbv beta iota.
  destruct (max_files <=? files_read st)%Z; [reflexivity|].
  rewrite bind_run; unfold emit at 1; cbv beta iota.
  rewrite bind_run; unfold lift; cbv beta.
  destruct (from_s3 (get_object E (Key o))) as [b|f]; cbv iota.
  - destruct (read_parquet_bytes E b) as [df|f];
      rewrite bind_run; [unfold append_row|unfold emit at 1]; cbv beta iota;
      rewrite IH; cbn [trace]; rewrite ?probes_app; cbn;
      now rewrite ?app_nil_r.
  - cbn [snd trace]; rewrite probes_app; cbn; now rewrite app_nil_r.
Qed.

Lemma for_pages_probes (prefix : str) (pages : list (s3_error + page))
      (st : state) :
  probes (trace (snd (for_pages E max_files prefix pages st)))
  = probes (trace st).
Proof.
  revert st; induction pages as [|p rest IH]; intros st; [reflexivity|].
  cbn [for_pages].
  rewrite bind_run; unfold emit at 1; cbv beta iota.
  assert (Hemit : probes (trace st ++ [(ListPage prefix, files_read st)])
                  = probes (trace st))
    by (rewrite probes_app; cbn; now rewrite app_nil_r).
  rewrite bind_run; unfold lift; cbv beta.
  destruct (from_s3 p) as [pg|f]; cbv iota; [|exact Hemit].
  rewrite bind_run.
  match goal with
  | |- context [for_objects E max_files ?objs ?s] =>
      pose proof (for_objects_probes objs s) as Ho;
      destruct (for_objects E max_files objs s) as [[[]|f] st2]
  end; cbn [snd trace] in Ho; [|now rewrite <- Hemit].
  rewrite bind_run; unfold get_files_read; cbv beta iota.
  destruct (max_files <=? files_read st2)%Z;
    [|rewrite IH]; cbn [snd]; now rewrite <- Hemit.
Qed.

Lemma for_templates_probes (tf ex sym : str) (d : Z) (templates : list str)
      (st : state) :
  let run := for_templates E max_files tf ex sym d templates st in
  exists l,
    probes (trace (snd run)) = probes (trace st) ++ l
    /\ is_prefix l (formatted tf ex sym d templates)
    /\ (fst run = Ok tt -> (files_read (snd run) < max_files)%Z ->
        l = formatted tf ex sym d templates).
Proof.
  revert st; induction templates as [|t rest IH]; intros st; cbv zeta.
  { exists []; cbn; rewrite app_nil_r.
    split; [reflexivity|split; [apply is_prefix_nil|reflexivity]]. }
  cbn [for_templates formatted flat_map].
  destruct (format_prefix t tf ex sym d) as [prefix|].
  2:{ exists []; cbn [fst snd raise]; rewrite app_nil_r.
      split; [reflexivity|split; [apply is_prefix_nil|intros H; discriminate H]]. }
  rewrite bind_run; unfold emit; cbv beta iota.
  rewrite bind_run.
  match goal with
  | |- context [for_pages E max_files prefix ?pages ?s] =>
      pose proof (for_pages_probes prefix pages s) as Hp;
      destruct (for_pages E max_files prefix pages s) as [[[]|f] st2]
  end; cbn [snd trace] in Hp; rewrite probes_app in Hp; cbn in Hp.
  2:{ exists [prefix]; cbn [fst snd].
      split; [exact Hp|split; [|intros H; discriminate H]].
      exists (formatted tf ex sym d rest); reflexivity. }
  rewrite bind_run; unfold get_files_read; cbv beta iota.
  destruct (Z.leb_spec max_files (files_read st2)) as [Hge|Hlt].
  { exists [prefix]; cbn [fst snd ret].
    split; [exact Hp|split; [|lia]].
    exists (formatted tf ex sym d rest); reflexivity. }
  destruct (IH st2) as (l & Hl & Hpre & Hfull).
  exists (prefix :: l); split; [|split].
  - rewrite Hl, Hp, <- app_assoc; reflexivity.
  - apply (is_prefix_app_l [prefix]), Hpre.
  - intros Hok Hbelow; cbn [app]; f_equal; now apply Hfull.
Qed.

Lemma for_days_probes (tf ex sym : str) (days : list Z) (st : state) :
  let run := for_days E max_files tf ex sym days st in
  let full :=
    flat_map (fun d => formatted tf ex sym d prefixes_to_try_template) days in
  exists l,
    probes (trace (snd run)) = probes (trace st) ++ l
    /\ is_prefix l full
    /\ (fst run = Ok tt -> (files_read (snd run) < max_files)%Z -> l = full).
Proof.
  revert st; induction days as [|d rest IH]; intros st; cbv zeta.
  { exists []; cbn; rewrite app_nil_r.
    split; [reflexivity|split; [apply is_prefix_nil|reflexivity]]. }
  cbn [for_days flat_map].
  rewrite bind_run.
  destruct (for_templates_probes tf ex sym d prefixes_to_try_template st)
    as (l1 & Hl1 & Hpre1 & Hfull1).
  destruct (for_templates E max_files tf ex sym d prefixes_to_try_template st)
    as [[[]|f] st1]; cbn [fst snd] in Hl1, Hfull1.
  2:{ exists l1; cbn [fst snd].
      split; [exact Hl1|split; [now apply is_prefix_app_r|intros H; discriminate H]]. }
  rewrite bind_run; unfold get_files_read; cbv beta iota.
  destruct (Z.leb_spec max_files (files_read st1)) as [Hge|Hlt].
  { exists l1; cbn [fst snd ret].
    split; [exact Hl1|split; [now apply is_prefix_app_r|lia]]. }
  rewrite (Hfull1 eq_refl Hlt) in Hl1.
  destruct (IH st1) as (l & Hl & Hpre & Hfull).
  exists (formatted tf ex sym d prefixes_to_try_template ++ l);
    split; [|split].
  - rewrite Hl, Hl1, <- app_assoc; reflexivity.
  - now apply is_prefix_app_l.
  - intros Hok Hbelow; f_equal; now apply Hfull.
Qed.

Lemma formatted_day (tf ex sym : str) (d : Z) :
  formatted tf ex sym d prefixes_to_try_template = day_prefixes tf ex sym d.
Proof.
  unfold formatted, prefixes_to_try_template, day_prefixes; cbn [flat_map].
  pose proof (format_plain tf ex sym d) as H0.
  pose proof (format_encoded tf ex sym d) as H1.
  cbn [nth prefixes_to_try_template] in H0, H1.
  now rewrite H0, H1.
Qed.

End ProbeFacts.

(** C9: for every timeframe, exchange, symbol and day the two templates
    format to exactly two prefixes, both the path
    [processed/timeframe=../exchange=../symbol=../year=../month=MM/day=DD/]
    with month and day as two decimal digits, the first with [=] and the
    second with [%3D] between each partition key and its value and equal
    otherwise.  The traversal starts the listings in that order, the plain
    prefix then the encoded one, day after day: the prefixes probed are an
    initial segment of that sequence, and all of it when the traversal ends
    normally below the budget. *)
Theorem two_prefixes_per_day (tf ex sym : str) (d : Z) :
  map (fun t => format_prefix t tf ex sym d) prefixes_to_try_template
  = [ Some (partition_prefix (lit "=") tf ex sym d);
      Some (partition_prefix (lit "%3D") tf ex sym d) ]
  /\ two_digits (fmt_02d (month d)) = true
  /\ two_digits (fmt_02d (day d)) = true
  /\ (forall (E : env) (max_files : Z) (days : list Z),
         let run := for_days E max_files tf ex sym days init in
         let full := flat_map (day_prefixes tf ex sym) days in
         is_prefix (probes (trace (snd run))) full
         /\ (fst run = Ok tt ->
             (files_read (snd run) < max_files)%Z ->
             probes (trace (snd run)) = full)).
Proof.
  destruct (month_day_bounds d) as [Hm Hd].
  split; [|split; [|split]].
  - pose proof (format_plain tf ex sym d) as H0.
    pose proof (format_encoded tf ex sym d) as H1.
    cbn [nth prefixes_to_try_template] in H0, H1.
    unfold prefixes_to_try_template; cbn [map].
    now rewrite H0, H1.
  - apply fmt_02d_two_digits; lia.
  - apply fmt_02d_two_digits; lia.
  - intros E max_files days run full.
    assert (Hfull : full
                    = flat_map (fun d => formatted tf ex sym d
                                                   prefixes_to_try_template) days).
    { unfold full; apply flat_map_ext; intros a.
      symmetry; apply formatted_day. }
    destruct (for_days_probes E max_files tf ex sym days init)
      as (l & Hl & Hpre & Hall).
    cbn [trace init probes flat_map app] in Hl.
    fold run in Hl, Hall.
    rewrite Hl, Hfull; split; [exact Hpre|exact Hall].
Qed.

Lemma two_prefixes_per_day_witness :
  probes (trace (snd (for_days empty_bucket 50 (lit "15m") (lit "NSE")
                               (lit "NSE_CIPLA-EQ") [738885; 738886]%Z init)))
  = [ lit "processed/timeframe=15m/exchange=NSE/symbol=NSE_CIPLA-EQ/year=2023/month=12/day=31/";
      lit "processed/timeframe%3D15m/exchange%3DNSE/symbol%3DNSE_CIPLA-EQ/year%3D2023/month%3D12/day%3D31/";
      lit "processed/timeframe=15m/exchange=NSE/symbol=NSE_CIPLA-EQ/year=2024/month=01/day=01/";
      lit "processed/timeframe%3D15m/exchange%3DNSE/symbol%3DNSE_CIPLA-EQ/year%3D2024/month%3D01/day%3D01/" ].
Proof.
  destruct (two_prefixes_per_day (lit "15m") (lit "NSE") (lit "NSE_CIPLA-EQ") 0)
    as (_ & _ & _ & Horder).
  destruct (Horder empty_bucket 50%Z [738885; 738886]%Z) as [_ Hall].
  rewrite Hall; reflexivity.
Defined.

(** ** The time filter *)

Section FilterFacts.

Variable E : env.

(** Without any candidate column nothing is filtered. *)
Lemma filter_between_no_column (cands : list str) (big : DataFrame)
      (lo hi : value) :
  forallb (fun c => negb (in_columns c big)) cands = true ->
  filter_between E cands big lo hi = Ok big.
Proof.
  induction cands as [|c cands IH]; cbn [forallb filter_between];
    [reflexivity|].
  intros H; apply andb_true_iff in H as [Hc Hrest].
  apply negb_true_iff in Hc; rewrite Hc.
  now apply IH.
Qed.

(** The filter works on the first candidate column present. *)
Lemma filter_between_first (cands : list str) (big : DataFrame) (lo hi : value) :
  filter_between E cands big lo hi
  = match first_present cands big with
    | None => Ok big
    | Some c => filter_between E [c] big lo hi
    end.
Proof.
  unfold first_present; induction cands as [|c cands IH]; [reflexivity|].
  cbn [filter_between find].
  destruct (in_columns c big) eqn:Hc; [|exact IH].
  now rewrite Hc.
Qed.

(** When the converted column is tz-aware, the bounds made from [utcnow]
    being tz-naive, the comparison raises. *)
Lemma filter_between_naive_bounds (cands : list str) (big : DataFrame)
      (start now : datetime) (c : str) :
  first_present cands big = Some c ->
  to_datetime_naive E (column big c) = false ->
  filter_between E cands big (to_timestamp start) (to_timestamp now)
  = Raise (Uncaught TypeError).
Proof.
  intros Hfirst Haware.
  rewrite filter_between_first, Hfirst; cbn [filter_between].
  apply find_some in Hfirst as [_ ->].
  unfold to_datetime_utc; rewrite Haware; reflexivity.
Qed.

Lemma select_rows_none (rows : list (list value)) (mask : list bool) :
  Forall (fun b => b = false) mask -> select_rows rows mask = [].
Proof.
  revert mask; induction rows as [|row rows IH]; intros mask H; [reflexivity|].
  destruct mask as [|b mask]; [reflexivity|].
  inversion H as [|? ? Hb Hrest]; subst; cbn [select_rows]; now apply IH.
Qed.

Lemma mask_and_none (a b : list bool) :
  Forall (fun x => x = false) a -> Forall (fun x => x = false) (mask_and a b).
Proof.
  revert b; induction a as [|x a IH]; intros b H; [constructor|].
  destruct b as [|y b]; [constructor|].
  inversion H as [|? ? Hx Hrest]; subst; cbn [mask_and].
  constructor; [reflexivity|now apply IH].
Qed.

Lemma nth_set_nth_nat (i : nat) (row : list value) :
  nth i (set_nth i NaT row) NaN = NaT \/ nth i (set_nth i NaT row) NaN = NaN.
Proof.
  revert i; induction row as [|x row IH]; intros [|i]; cbn; auto.
Qed.

(** A column given up by the conversion compares false everywhere. *)
Lemma given_up_mask (op : Z -> Z -> bool) (t : Z) (cols : list str) (c : str)
      (i : nat) (rows : list (list value)) (vals : list value) :
  index_of c cols = Some i ->
  List.length vals = List.length rows ->
  Forall (fun v => v = NaT) vals ->
  Forall (fun b => b = false)
         (map (fun v => match v with
                        | Timestamp _ x => op x t
                        | _ => false
                        end)
              (map (fun row => cell cols row c) (set_cells i rows vals))).
Proof.
  intros Hi; unfold cell; rewrite Hi.
  revert vals; induction rows as [|row rows IH]; intros vals Hlen Hvals;
    [destruct vals; constructor|].
  destruct vals as [|v vals]; [discriminate|].
  inversion Hvals as [|? ? Hv Hrest]; subst.
  cbn [set_cells map]; constructor.
  - destruct (nth_set_nth_nat i row) as [-> | ->]; reflexivity.
  - apply IH; [now injection Hlen|exact Hrest].
Qed.

Lemma index_of_present (c : str) (df : DataFrame) :
  in_columns c df = true -> exists i, index_of c (columns df) = Some i.
Proof.
  unfold in_columns.
  induction (columns df) as [|x cols IH]; cbn [existsb index_of];
    [discriminate|].
  intros H; apply orb_true_iff in H as [Hx|Hrest].
  - assert (Hxc : PyStr.eqb x c = true).
    { unfold PyStr.eqb in *.
      destruct (list_eq_dec ascii_dec c x) as [->|]; [|discriminate].
      now destruct (list_eq_dec ascii_dec x x). }
    rewrite Hxc; now exists 0%nat.
  - destruct (PyStr.eqb x c); [now exists 0%nat|].
    destruct (IH Hrest) as [i ->]; now exists (S i).
Qed.

(** When the conversion gives the column up, it is tz-naive and all
    [NaT]: the comparisons succeed and no row is selected. *)
Lemma filter_between_given_up (cands : list str) (big : DataFrame)
      (start now : datetime) (c : str) :
  first_present cands big = Some c ->
  to_datetime_naive E (column big c) = true ->
  exists big',
    filter_between E cands big (to_timestamp start) (to_timestamp now) = Ok big'
    /\ columns big' = columns big
    /\ records big' = [].
Proof.
  intros Hfirst Hnaive.
  rewrite filter_between_first, Hfirst; cbn [filter_between].
  apply find_some in Hfirst as [_ Hin]; rewrite Hin.
  unfold to_datetime_utc; rewrite Hnaive; cbn [fst snd].
  destruct (index_of_present c big Hin) as [i Hi].
  unfold series_cmp, to_timestamp; cbn [Bool.eqb].
  eexists; split; [reflexivity|].
  unfold select, set_column; rewrite Hi; cbn [columns records].
  split; [reflexivity|].
  apply select_rows_none, mask_and_none.
  unfold column; cbn [columns records].
  apply given_up_mask; [exact Hi| |].
  - unfold column; now rewrite !length_map.
  - apply Forall_forall; intros v Hv.
    apply in_map_iff in Hv as (x & <- & _); reflexivity.
Qed.

End FilterFacts.

(** With tz-aware bounds the filter would keep the rows between them,
    both ends included, and drop the unreadable one. *)
Example filter_between_aware_bounds :
  filter_between stamped_bucket candidates stamped_table
                 (Timestamp true (instant (Datetime.mk 738885 0)))
                 (Timestamp true (instant new_year_2024))
  = Ok (mkDF [lit "timestamp"; lit "close"]
             [ [Timestamp true noon_before; Int 101];
               [Timestamp true (instant new_year_2024); Int 102] ]).
Proof. vm_compute; reflexivity. Qed.

(** A [date] column of booleans is given up by the conversion: the query
    succeeds and returns no row. *)
Example flagged_bucket_returns_no_rows :
  get_price flagged_bucket (lit "CIPLA,15m,1d") (lit "NSE") 50
  = Ok (mkPrice (lit "CIPLA") (lit "NSE_CIPLA-EQ") (lit "15m") (lit "1d") 0 []).
Proof. vm_compute; reflexivity. Qed.

(** C8 (the code departs from it): a one-day query at midnight of
    2024-01-01 over a bucket whose only table has a [timestamp] column,
    with rows inside the range, ends in an uncaught [TypeError] instead of
    returning the rows of the range.  In general the filter looks at the
    first candidate column present: if the conversion keeps that column
    (tz-aware) the comparison with the tz-naive bounds raises; if the
    conversion gives the column up (tz-naive, all [NaT]) every row is
    dropped; a table without any of the candidate columns is returned
    whole. *)
Theorem time_filter_raises_type_error :
  get_price stamped_bucket (lit "CIPLA,15m,1d") (lit "NSE") 50
  = Raise (Uncaught TypeError)
  /\ rows (snd (get_price_run stamped_bucket (lit "CIPLA,15m,1d") (lit "NSE") 50
                              init)) = [stamped_table]
  /\ (instant (Datetime.mk 738885 0) <= noon_before <= instant new_year_2024)%Z
  /\ (forall E big start now,
         let out := filter_between E candidates big
                                   (to_timestamp start) (to_timestamp now) in
         match first_present candidates big with
         | None => out = Ok big
         | Some c =>
             if to_datetime_naive E (column big c)
             then exists big', out = Ok big' /\ records big' = []
             else out = Raise (Uncaught TypeError)
         end).
Proof.
  split; [vm_compute; reflexivity|].
  split; [vm_compute; reflexivity|].
  split; [vm_compute; split; discriminate|].
  intros E big start now; cbv zeta.
  destruct (first_present candidates big) as [c|] eqn:Hfirst.
  - destruct (to_datetime_naive E (column big c)) eqn:Hnaive.
    + destruct (filter_between_given_up E candidates big start now c
                  Hfirst Hnaive) as (big' & Hout & _ & Hrec).
      now exists big'.
    + now apply filter_between_naive_bounds with (c := c).
  - now rewrite filter_between_first, Hfirst.
Qed.

(** * Further properties of the code *)

(** ** Credentials *)

(** X15: the session of an endpoint carries either both keys or none.  It
    carries both exactly when each key is a non-empty string in the query
    or, failing that, in the environment; the key of the query wins. *)
Theorem endpoint_session_all_or_nothing
        (qa qs ea es : option str) (region : str) :
  let s := endpoint_session qa qs ea es region in
  region_name s = region
  /\ (if (truthy qa || truthy ea) && (truthy qs || truthy es)
      then aws_access_key_id s = (if truthy qa then qa else ea)
           /\ aws_secret_access_key s = (if truthy qs then qs else es)
           /\ truthy (aws_access_key_id s) = true
           /\ truthy (aws_secret_access_key s) = true
      else aws_access_key_id s = None /\ aws_secret_access_key s = None).
Proof.
  unfold endpoint_session, get_session, py_or; cbv zeta.
  destruct (truthy qa) eqn:Hqa, (truthy qs) eqn:Hqs,
           (truthy ea) eqn:Hea, (truthy es) eqn:Hes;
    cbn [orb andb]; rewrite ?Hqa, ?Hqs, ?Hea, ?Hes; cbn [andb];
    cbn [region_name aws_access_key_id aws_secret_access_key]; auto.
Qed.

(** ** Symbols, tokens and ranges *)

Section TokenFacts.

Lemma upper_lower_char (c : ascii) : upper_char (lower_char c) = upper_char c.
Proof. destruct c as [[] [] [] [] [] [] [] []]; reflexivity. Qed.

Lemma lower_upper_char (c : ascii) : lower_char (upper_char c) = lower_char c.
Proof. destruct c as [[] [] [] [] [] [] [] []]; reflexivity. Qed.

Lemma isspace_lower_char (c : ascii) : isspace (lower_char c) = isspace c.
Proof. destruct c as [[] [] [] [] [] [] [] []]; reflexivity. Qed.

Lemma upper_lower (s : str) : upper (lower s) = upper s.
Proof.
  unfold upper, lower; rewrite map_map; apply map_ext; intros.
  apply upper_lower_char.
Qed.

Lemma lstrip_lower (s : str) : lstrip (lower s) = lower (lstrip s).
Proof.
  induction s as [|c s IH]; simpl; [reflexivity|].
  rewrite isspace_lower_char; now destruct (isspace c).
Qed.

Lemma strip_lower (s : str) : strip (lower s) = lower (strip s).
Proof.
  unfold strip, rstrip.
  assert (Hrev : forall t, lower (rev t) = rev (lower t))
    by (intros t; apply map_rev).
  now rewrite lstrip_lower, <- Hrev, lstrip_lower, <- Hrev.
Qed.

Lemma lstrip_spaces (ws s : str) :
  forallb isspace ws = true -> lstrip (ws ++ s) = lstrip s.
Proof.
  induction ws as [|c ws IH]; intros H; [reflexivity|].
  simpl in H; apply andb_true_iff in H as [Hc Hws].
  simpl; rewrite Hc; now apply IH.
Qed.

Lemma lstrip_app_nonspace (s t : str) :
  lstrip s <> [] -> lstrip (s ++ t) = lstrip s ++ t.
Proof.
  induction s as [|c s IH]; [intros H; exfalso; now apply H|].
  simpl; destruct (isspace c); [exact IH|reflexivity].
Qed.

Lemma lstrip_all_space (s t : str) :
  lstrip s = [] -> lstrip (s ++ t) = lstrip t.
Proof.
  induction s as [|c s IH]; [reflexivity|].
  simpl; destruct (isspace c); [exact IH|discriminate].
Qed.

Lemma strip_padded (l s r : str) :
  forallb isspace l = true -> forallb isspace r = true ->
  strip (l ++ s ++ r) = strip s.
Proof.
  intros Hl Hr; unfold strip, rstrip.
  rewrite (lstrip_spaces l (s ++ r) Hl).
  assert (Hrr : forallb isspace (rev r) = true).
  { apply forallb_forall; intros x Hx; apply in_rev in Hx.
    revert x Hx; now apply forallb_forall. }
  f_equal.
  destruct (lstrip s) as [|c u] eqn:Hs.
  - rewrite (lstrip_all_space s r Hs).
    assert (Hall : lstrip r = []).
    { pose proof (lstrip_spaces r [] Hr) as H.
      now rewrite app_nil_r in H. }
    now rewrite Hall.
  - rewrite (lstrip_app_nonspace s r) by (rewrite Hs; discriminate).
    rewrite Hs, rev_app_distr.
    now apply lstrip_spaces.
Qed.

Lemma split_on_length (sep : ascii) (s cur : str) :
  List.length (split_on sep s cur) = S (count_char sep s).
Proof.
  revert cur; induction s as [|c s IH]; intros cur; [reflexivity|].
  unfold count_char; cbn [split_on filter].
  rewrite (Ascii.eqb_sym sep c).
  destruct (Ascii.eqb c sep); cbn [List.length]; rewrite IH; reflexivity.
Qed.

Lemma range_start_snoc (now : datetime) (p : str) (c : ascii) (val : Z) :
  py_int p = Some val ->
  range_start now (p ++ [c])
  = let back (days : Z) :=
      match timedelta days with
      | Ok d => Datetime.sub now d
      | Raise f => Raise f
      end in
    if Ascii.eqb (lower_char c) "d" then back val
    else if Ascii.eqb (lower_char c) "m" then back (30 * val)%Z
    else if Ascii.eqb (lower_char c) "y" then back (365 * val)%Z
    else Raise UnknownRangeUnit.
Proof.
  intros Hint; unfold range_start.
  now rewrite last_char_snoc, but_last_snoc, Hint.
Qed.

Lemma py_range_in (n i : Z) : In i (py_range n) <-> (0 <= i < n)%Z.
Proof.
  unfold py_range; rewrite in_map_iff; split.
  - intros (k & <- & Hk); apply in_seq in Hk; lia.
  - intros Hi; exists (Z.to_nat i); split; [lia|].
    apply in_seq; lia.
Qed.

End TokenFacts.

(** X11: the normalised symbol does not depend on whitespace around
    the symbol nor on its being uppercased first; for a symbol in ASCII
    text it does not depend on the case of its letters at all. *)
Theorem normalize_ignores_case_and_padding (sym exchange l r : str) :
  forallb isspace l = true ->
  forallb isspace r = true ->
  normalize_symbol_for_bucket (upper sym) exchange
  = normalize_symbol_for_bucket sym exchange
  /\ (is_ascii sym = true ->
      normalize_symbol_for_bucket (lower sym) exchange
      = normalize_symbol_for_bucket sym exchange)
  /\ normalize_symbol_for_bucket (l ++ sym ++ r) exchange
     = normalize_symbol_for_bucket sym exchange.
Proof.
  intros Hl Hr; unfold normalize_symbol_for_bucket.
  rewrite strip_upper, upper_idem.
  split; [reflexivity|].
  split.
  - intros _; now rewrite strip_lower, upper_lower.
  - now rewrite (strip_padded l sym r Hl Hr).
Qed.

Lemma normalize_ignores_case_and_padding_witness :
  normalize_symbol_for_bucket (lit "  " ++ lit "Cipla" ++ lit " ") (lit "NSE")
  = normalize_symbol_for_bucket (lit "Cipla") (lit "NSE")
  /\ normalize_symbol_for_bucket (lower (lit "Cipla")) (lit "NSE")
     = normalize_symbol_for_bucket (lit "Cipla") (lit "NSE").
Proof.
  destruct (normalize_ignores_case_and_padding (lit "Cipla") (lit "NSE")
              (lit "  ") (lit " ")) as (_ & Hlower & Hpad);
    [reflexivity | reflexivity |].
  split; [exact Hpad | apply Hlower; reflexivity].
Defined.

(** X3: the unit of a range token is read without regard to case: [7D]
    means [7d]. *)
Theorem range_unit_case_insensitive (now : datetime) (p : str) (c : ascii) :
  range_start now (p ++ [upper_char c]) = range_start now (p ++ [c])
  /\ range_start now (p ++ [lower_char c]) = range_start now (p ++ [c]).
Proof.
  assert (Hll : lower_char (lower_char c) = lower_char c)
    by (destruct c as [[] [] [] [] [] [] [] []]; reflexivity).
  unfold range_start.
  rewrite !last_char_snoc, !but_last_snoc, lower_upper_char, Hll.
  split; reflexivity.
Qed.

(** X1: a request whose parameter does not hold exactly two commas is
    rejected with status 400 before anything else is done. *)
Theorem wrong_token_count_rejected
        (E : env) (params exchange : str) (max_files : Z) :
  count_char "," params <> 2%nat ->
  get_price_run E params exchange max_files init
  = (Raise (HTTPException 400
              (lit "Use symbol,timeframe,range (e.g. CIPLA,15m,1d)")), init).
Proof.
  intros Hcount; unfold get_price_run.
  assert (Hlen : List.length (map strip (split params ",")) <> 3%nat).
  { rewrite length_map; unfold split; rewrite split_on_length; lia. }
  destruct (map strip (split params ",")) as [|a [|b [|c [|x l]]]];
    try reflexivity.
  now cbn in Hlen.
Qed.

Lemma wrong_token_count_rejected_witness :
  get_price_run empty_bucket (lit "CIPLA,15m") (lit "NSE") 50 init
  = (Raise MalformedQuery, init).
Proof.
  apply (wrong_token_count_rejected empty_bucket (lit "CIPLA,15m") (lit "NSE") 50).
  vm_compute; discriminate.
Defined.

(** X2: a range token whose magnitude parses but whose last character is
    none of d, m, y (in either case) is rejected with status 400, the store
    not being accessed. *)
Theorem unknown_range_unit_rejected
        (E : env) (params exchange : str) (max_files : Z)
        (sym tf p : str) (c : ascii) (val : Z) :
  map strip (split params ",") = [sym; tf; p ++ [c]] ->
  py_int p = Some val ->
  ~ In (lower_char c) ["d"; "m"; "y"]%char ->
  get_price_run E params exchange max_files init
  = (Raise (HTTPException 400 (lit "Unknown range unit; use d/m/y")), init).
Proof.
  intros Hparts Hint Hunit.
  unfold get_price_run; rewrite Hparts.
  rewrite bind_run; unfold lift; cbv beta.
  rewrite (range_start_snoc _ _ _ _ Hint); cbv zeta.
  destruct (Ascii.eqb_spec (lower_char c) "d") as [Hd|_];
    [exfalso; apply Hunit; rewrite Hd; simpl; auto|].
  destruct (Ascii.eqb_spec (lower_char c) "m") as [Hm|_];
    [exfalso; apply Hunit; rewrite Hm; simpl; auto|].
  destruct (Ascii.eqb_spec (lower_char c) "y") as [Hy|_];
    [exfalso; apply Hunit; rewrite Hy; simpl; auto|].
  reflexivity.
Qed.

Lemma unknown_range_unit_rejected_witness :
  get_price_run empty_bucket (lit "CIPLA,15m,5x") (lit "NSE") 50 init
  = (Raise UnknownRangeUnit, init).
Proof.
  apply (unknown_range_unit_rejected empty_bucket (lit "CIPLA,15m,5x")
           (lit "NSE") 50 (lit "CIPLA") (lit "15m") (lit "5") "x"%char 5%Z);
    [reflexivity | reflexivity |].
  simpl; intros [H|[H|[H|[]]]]; discriminate H.
Defined.

(** X4: the days probed are exactly the calendar days from [start.date()]
    to [now.date()], each once and in increasing order; there is none when
    the start lies after today. *)
Theorem date_iter_days (start now : datetime) :
  (forall d, In d (date_iter start now) <-> (date start <= d <= date now)%Z)
  /\ List.length (date_iter start now) = Z.to_nat (date now - date start + 1)
  /\ (forall i j di dj,
         nth_error (date_iter start now) i = Some di ->
         nth_error (date_iter start now) j = Some dj ->
         (i < j)%nat -> (di < dj)%Z).
Proof.
  split; [|split].
  - intros d; unfold date_iter; rewrite in_map_iff; split.
    + intros (i & <- & Hi); apply py_range_in in Hi; lia.
    + intros Hd; exists (d - date start)%Z; split; [lia|].
      apply py_range_in; lia.
  - unfold date_iter; now rewrite length_map, py_range_length.
  - unfold date_iter, py_range; intros i j di dj Hi Hj Hij.
    rewrite map_map in Hi, Hj.
    rewrite nth_error_map in Hi, Hj.
    destruct (nth_error (seq 0 _) i) as [a|] eqn:Ha; [|discriminate].
    destruct (nth_error (seq 0 _) j) as [b|] eqn:Hb; [|discriminate].
    cbn in Hi, Hj; injection Hi as <-; injection Hj as <-.
    assert (Hlen_i : (i < List.length
                           (seq 0 (Z.to_nat (date now - date start + 1))))%nat)
      by (apply nth_error_Some; congruence).
    assert (Hlen_j : (j < List.length
                           (seq 0 (Z.to_nat (date now - date start + 1))))%nat)
      by (apply nth_error_Some; congruence).
    rewrite length_seq in Hlen_i, Hlen_j.
    apply nth_error_nth with (d := 0%nat) in Ha, Hb.
    rewrite seq_nth in Ha, Hb by assumption.
    lia.
Qed.

(** ** Invariants of the traversal *)

Section TraversalInvariant.

Variable E : env.
Variable max_files : Z.
Variables I J : state -> Prop.

Hypothesis I_J : forall st, I st -> J st.
Hypothesis I_paginate : forall p st, I st -> I (log (Paginate p) st).
Hypothesis I_list : forall p st, I st -> I (log (ListPage p) st).
Hypothesis I_decoded :
  forall k b df st,
    is_parquet k = true -> (files_read st < max_files)%Z ->
    get_object E k = inr b -> pq_read_table E b = Some df ->
    I st -> I (push k df (log (GetObject k) st)).
Hypothesis I_skipped :
  forall k b st,
    is_parquet k = true -> (files_read st < max_files)%Z ->
    get_object E k = inr b -> pq_read_table E b = None ->
    I st -> I (log (PrintSkip k) (log (GetObject k) st)).
Hypothesis J_failed :
  forall k e st,
    is_parquet k = true -> (files_read st < max_files)%Z ->
    get_object E k = inl e ->
    I st -> J (log (GetObject k) st).

Lemma emit_run (e : event) (st : state) : emit e st = (Ok tt, log e st).
Proof. reflexivity. Qed.

Lemma append_row_run (k : str) (df : DataFrame) (st : state) :
  append_row k df st = (Ok tt, push k df st).
Proof. reflexivity. Qed.

Lemma from_s3_failure {A : Type} (e : s3_error) :
  exists f, @from_s3 A (inl e) = Raise f /\ store_failure f.
Proof.
  destruct e; eexists; (split; [reflexivity|]); [left|right]; reflexivity.
Qed.

Lemma for_objects_invariant (objs : list obj) (st : state) :
  I st -> holds_after I J (for_objects E max_files objs st).
Proof.
  revert st; induction objs as [|o rest IH]; intros st HI; [exact HI|].
  cbn [for_objects].
  destruct (negb (endswith (lower (Key o)) (lit ".parquet"))) eqn:Hk;
    [now apply IH|].
  apply negb_false_iff in Hk; fold (is_parquet (Key o)) in Hk.
  rewrite bind_run; unfold get_files_read; cbv beta iota.
  destruct (Z.leb_spec max_files (files_read st)) as [Hge|Hlt]; [exact HI|].
  rewrite bind_run, emit_run; cbv iota.
  rewrite bind_run; unfold lift; cbv beta.
  destruct (get_object E (Key o)) as [e|b] eqn:Hget.
  - destruct (@from_s3_failure (list Byte.byte) e) as (f & -> & Hf).
    split; [|exact Hf].
    now apply (J_failed (Key o) e).
  - cbn [from_s3]; cbv iota.
    unfold read_parquet_bytes.
    destruct (pq_read_table E b) as [df|] eqn:Hdec.
    + rewrite bind_run, append_row_run; cbv iota.
      apply IH; now apply (I_decoded (Key o) b).
    + rewrite bind_run, emit_run; cbv iota.
      apply IH; now apply (I_skipped (Key o) b).
Qed.

Lemma for_pages_invariant (prefix : str) (pages : list (s3_error + page))
      (st : state) :
  I st -> holds_after I J (for_pages E max_files prefix pages st).
Proof.
  revert st; induction pages as [|p rest IH]; intros st HI; [exact HI|].
  cbn [for_pages].
  rewrite bind_run, emit_run; cbv iota.
  rewrite bind_run; unfold lift; cbv beta.
  destruct p as [e|pg].
  - destruct (@from_s3_failure page e) as (f & -> & Hf).
    split; [|exact Hf].
    apply I_J, I_list, HI.
  - cbn [from_s3]; cbv iota; rewrite bind_run.
    pose proof (for_objects_invariant
                  (match Contents pg with Some c => c | None => [] end)
                  (log (ListPage prefix) st) (I_list prefix st HI)) as Ho.
    unfold holds_after in Ho.
    destruct (for_objects E max_files _ (log (ListPage prefix) st))
      as [[[]|f] st2]; cbn [fst snd] in Ho; [|exact Ho].
    rewrite bind_run; unfold get_files_read; cbv beta iota.
    destruct (max_files <=? files_read st2)%Z; [exact Ho|now apply IH].
Qed.

Lemma for_templates_invariant (tf ex sym : str) (d : Z) (templates : list str)
      (st : state) :
  Forall (fun t => format_prefix t tf ex sym d <> None) templates ->
  I st ->
  holds_after I J (for_templates E max_files tf ex sym d templates st).
Proof.
  revert st; induction templates as [|t rest IH]; intros st Hfmt HI; [exact HI|].
  cbn [for_templates].
  inversion Hfmt as [|t' rest' Ht Hrest]; subst.
  destruct (format_prefix t tf ex sym d) as [prefix|]; [|congruence].
  rewrite bind_run, emit_run; cbv iota.
  rewrite bind_run.
  pose proof (for_pages_invariant prefix (paginate E prefix)
                (log (Paginate prefix) st) (I_paginate prefix st HI)) as Hp.
  unfold holds_after in Hp.
  destruct (for_pages E max_files prefix _ (log (Paginate prefix) st))
    as [[[]|f] st2]; cbn [fst snd] in Hp; [|exact Hp].
  rewrite bind_run; unfold get_files_read; cbv beta iota.
  destruct (max_files <=? files_read st2)%Z; [exact Hp|now apply IH].
Qed.

Lemma templates_format (tf ex sym : str) (d : Z) :
  Forall (fun t => format_prefix t tf ex sym d <> None) prefixes_to_try_template.
Proof.
  pose proof (format_plain tf ex sym d) as H0.
  pose proof (format_encoded tf ex sym d) as H1.
  cbn [nth prefixes_to_try_template] in H0, H1.
  unfold prefixes_to_try_template.
  repeat constructor; congruence.
Qed.

Lemma for_days_invariant (tf ex sym : str) (days : list Z) (st : state) :
  I st -> holds_after I J (for_days E max_files tf ex sym days st).
Proof.
  revert st; induction days as [|d rest IH]; intros st HI; [exact HI|].
  cbn [for_days].
  rewrite bind_run.
  pose proof (for_templates_invariant tf ex sym d prefixes_to_try_template st
                (templates_format tf ex sym d) HI) as Ht.
  unfold holds_after in Ht.
  destruct (for_templates E max_files tf ex sym d prefixes_to_try_template st)
    as [[[]|f] st1]; cbn [fst snd] in Ht; [|exact Ht].
  rewrite bind_run; unfold get_files_read; cbv beta iota.
  destruct (max_files <=? files_read st1)%Z; [exact Ht|now apply IH].
Qed.

End TraversalInvariant.

(** ** The stages of a range query *)

Section Stages.

Variable E : env.
Variable max_files : Z.

Lemma range_start_failure (now : datetime) (rng : str) (f : failure) :
  range_start now rng = Raise f -> parse_failure f.
Proof.
  unfold range_start, parse_failure.
  destruct (last_char rng); [|intros H; injection H as <-; auto].
  destruct (py_int (but_last rng)); [|intros H; injection H as <-; auto].
  unfold timedelta, Datetime.sub.
  repeat match goal with
         | |- context [if ?b then _ else _] => destruct b
         end; intros H; try discriminate H; injection H as <-; auto 6.
Qed.

Lemma filter_between_failure (cands : list str) (big : DataFrame)
      (lo hi : value) (f : failure) :
  filter_between E cands big lo hi = Raise f -> f = Uncaught TypeError.
Proof.
  induction cands as [|c cands IH]; cbn [filter_between]; [discriminate|].
  destruct (in_columns c big); [|exact IH].
  cbv zeta.
  destruct (series_cmp Z.geb _ _ lo) as [ge|f1] eqn:Hge.
  - destruct (series_cmp Z.leb _ _ hi) as [le|f2] eqn:Hle; [discriminate|].
    intros H; injection H as <-.
    exact (series_cmp_failure _ _ _ _ _ Hle).
  - intros H; injection H as <-.
    exact (series_cmp_failure _ _ _ _ _ Hge).
Qed.

(** A range query either fails while reading the request, in the initial
    state, or runs the traversal and then, if that ended normally,
    assembles the answer. *)
Lemma get_price_run_stages (params exchange : str) :
  (exists f, parse_failure f
             /\ get_price_run E params exchange max_files init = (Raise f, init))
  \/ (exists sym tf rng start,
         map strip (split params ",") = [sym; tf; rng]
         /\ range_start (utcnow E) rng = Ok start
         /\ get_price_run E params exchange max_files init
            = let sp := normalize_symbol_for_bucket sym exchange in
              let out := for_days E max_files tf exchange sp
                                  (date_iter start (utcnow E)) init in
              match fst out with
              | Ok _ => assemble E sym sp tf rng start (snd out)
              | Raise f => (Raise f, snd out)
              end).
Proof.
  unfold get_price_run.
  destruct (map strip (split params ",")) as [|sym [|tf [|rng [|x l]]]];
    try (left; exists MalformedQuery; split; [left|]; reflexivity).
  rewrite bind_run; unfold lift; cbv beta.
  destruct (range_start (utcnow E) rng) as [start|f] eqn:Hstart.
  - right; exists sym, tf, rng, start.
    split; [reflexivity|split; [exact Hstart|]].
    cbv iota zeta; rewrite bind_run.
    destruct (for_days E max_files tf exchange _ _ init) as [[[]|f] st1];
      cbn [fst snd]; [|reflexivity].
    rewrite bind_run; unfold get_rows, assemble; cbv beta iota.
    destruct (rows st1) as [|df rows']; [reflexivity|].
    rewrite bind_run; unfold lift; cbv beta.
    destruct (filter_between E candidates _ _ _); reflexivity.
  - left; exists f; split; [|reflexivity].
    exact (range_start_failure _ _ _ Hstart).
Qed.

(** What the traversal keeps holds of the final state of the request,
    unless the store failed. *)
Lemma get_price_run_invariant (I J : state -> Prop) (params exchange : str) :
  I init ->
  (forall tf sym days,
      holds_after I J (for_days E max_files tf exchange sym days init)) ->
  let run := get_price_run E params exchange max_files init in
  I (snd run)
  \/ (exists f, fst run = Raise f /\ store_failure f /\ J (snd run)).
Proof.
  intros Hinit Hdays; cbv zeta.
  destruct (get_price_run_stages params exchange)
    as [(f & _ & ->)|(sym & tf & rng & start & _ & _ & ->)];
    [now left|].
  cbv zeta.
  specialize (Hdays tf (normalize_symbol_for_bucket sym exchange)
                    (date_iter start (utcnow E))).
  unfold holds_after in Hdays.
  destruct (for_days E max_files tf exchange _ _ init) as [[[]|f] st1];
    cbn [fst snd] in *.
  - left; unfold assemble.
    destruct (rows st1); [exact Hdays|].
    destruct (filter_between E candidates _ _ _); exact Hdays.
  - right; exists f; tauto.
Qed.

End Stages.

(** ** What is fetched *)

Section FetchFacts.

Variable E : env.
Variable max_files : Z.

Lemma fetched_keys_log (P : str -> Prop) (e : event) (st : state) :
  fetched_keys P st ->
  match e with
  | GetObject k | Decoded k | PrintSkip k => P k
  | _ => True
  end ->
  fetched_keys P (log e st).
Proof.
  intros Hst He; unfold fetched_keys, log, emit; cbn [snd trace].
  apply Forall_app; split; [exact Hst|].
  constructor; [exact He|constructor].
Qed.

Lemma fetched_keys_push (P : str -> Prop) (k : str) (df : DataFrame)
      (st : state) :
  fetched_keys P st -> P k -> fetched_keys P (push k df st).
Proof.
  intros Hst Hk; unfold fetched_keys, push, append_row; cbn [snd trace].
  apply Forall_app; split; [exact Hst|].
  constructor; [exact Hk|constructor].
Qed.

Lemma count_events_log (p : event -> bool) (e : event) (st : state) :
  count_events p (log e st)
  = (count_events p st + if p e then 1 else 0)%nat.
Proof.
  unfold count_events, log, emit; cbn [snd trace].
  rewrite filter_app, length_app; cbn [filter fst].
  now destruct (p e).
Qed.

Lemma count_events_push (p : event -> bool) (k : str) (df : DataFrame)
      (st : state) :
  count_events p (push k df st)
  = (count_events p st + if p (Decoded k) then 1 else 0)%nat.
Proof.
  unfold count_events, push, append_row; cbn [snd trace].
  rewrite filter_app, length_app; cbn [filter fst].
  now destruct (p (Decoded k)).
Qed.

End FetchFacts.

(** X5: whatever the listings hold, only objects whose key ends in
    [.parquet], in any case, are fetched, counted or reported as skipped. *)
Theorem only_parquet_keys_fetched
        (E : env) (params exchange : str) (max_files : Z) :
  fetched_keys (fun k => is_parquet k = true)
               (snd (get_price_run E params exchange max_files init)).
Proof.
  set (P := fun k => is_parquet k = true).
  assert (Hinit : fetched_keys P init) by constructor.
  destruct (get_price_run_invariant E max_files (fetched_keys P) (fetched_keys P)
              params exchange Hinit) as [H|(f & _ & _ & H)]; try exact H.
  intros tf sym days.
  apply for_days_invariant; try assumption.
  - auto.
  - intros p st Hst; now apply fetched_keys_log.
  - intros p st Hst; now apply fetched_keys_log.
  - intros k b df st Hk _ _ _ Hst.
    apply fetched_keys_push; [|exact Hk].
    now apply fetched_keys_log.
  - intros k b st Hk _ _ _ Hst.
    apply fetched_keys_log; [|exact Hk].
    now apply fetched_keys_log.
  - intros k e st Hk _ _ Hst; now apply fetched_keys_log.
Qed.

(** X6: the failures of a range query.  It fails with one of the three
    400 errors or with an uncaught [IndexError] or [OverflowError] only
    while reading the request, the store untouched; with a store failure
    handed on as it is; with 404 only when no table was decoded; and with
    an uncaught [TypeError] only after tables were decoded.  No other
    failure leaves it. *)
Theorem get_price_failures
        (E : env) (params exchange : str) (max_files : Z) :
  let run := get_price_run E params exchange max_files init in
  match fst run with
  | Ok _ => rows (snd run) <> []
  | Raise f =>
      (parse_failure f /\ snd run = init)
      \/ store_failure f
      \/ (f = NoDataFound /\ rows (snd run) = [])
      \/ (f = Uncaught TypeError /\ rows (snd run) <> [])
  end.
Proof.
  cbv zeta.
  destruct (get_price_run_stages E max_files params exchange)
    as [(f & Hf & ->)|(sym & tf & rng & start & _ & _ & ->)];
    [left; now split|].
  cbv zeta.
  pose proof (for_days_invariant E max_files (fun _ => True) (fun _ => True)
                ltac:(auto) ltac:(auto) ltac:(auto) ltac:(auto) ltac:(auto)
                ltac:(auto) tf exchange
                (normalize_symbol_for_bucket sym exchange)
                (date_iter start (utcnow E)) init I) as Hd.
  unfold holds_after in Hd.
  destruct (for_days E max_files tf exchange _ _ init) as [[[]|f] st1];
    cbn [fst snd] in *; [|right; left; tauto].
  unfold assemble.
  destruct (rows st1) as [|df rows'] eqn:Hrows; cbn [fst snd].
  - right; right; left; now split.
  - destruct (filter_between E candidates _ _ _) as [big|f] eqn:Hf;
      cbn [fst snd]; rewrite Hrows; [discriminate|].
    right; right; right; split; [|discriminate].
    exact (filter_between_failure E _ _ _ _ _ Hf).
Qed.

(** X7: with a budget of zero or less no object is ever fetched and
    no table decoded, so the query cannot succeed. *)
Theorem no_budget_no_fetch
        (E : env) (params exchange : str) (max_files : Z) :
  (max_files <= 0)%Z ->
  let st := snd (get_price_run E params exchange max_files init) in
  rows st = []
  /\ files_read st = 0%Z
  /\ fetched_keys (fun _ => False) st
  /\ (forall resp, get_price E params exchange max_files <> Ok resp).
Proof.
  intros Hmax; cbv zeta.
  set (I := fun st => rows st = [] /\ files_read st = 0%Z
                      /\ fetched_keys (fun _ => False) st).
  assert (Hinit : I init) by (repeat split; constructor).
  assert (Hrun : I (snd (get_price_run E params exchange max_files init))).
  { destruct (get_price_run_invariant E max_files I I params exchange Hinit)
      as [H|(f & _ & _ & H)]; try exact H.
    intros tf sym days.
    apply for_days_invariant; try assumption.
    - auto.
    - intros p st (Hr & Hn & Hk); repeat split; try assumption.
      now apply fetched_keys_log.
    - intros p st (Hr & Hn & Hk); repeat split; try assumption.
      now apply fetched_keys_log.
    - intros k b df st _ Hlt _ _ (_ & Hn & _); lia.
    - intros k b st _ Hlt _ _ (_ & Hn & _); lia.
    - intros k e st _ Hlt _ (_ & Hn & _); lia. }
  destruct Hrun as (Hr & Hn & Hk).
  repeat split; try assumption.
  intros resp Hok.
  now apply (get_price_ok_rows E max_files params exchange resp Hok).
Qed.

Lemma no_budget_no_fetch_witness :
  rows (snd (get_price_run busy_bucket (lit "CIPLA,15m,7d") (lit "NSE") 0 init))
  = [].
Proof.
  apply (no_budget_no_fetch busy_bucket (lit "CIPLA,15m,7d") (lit "NSE") 0).
  discriminate.
Defined.

(** X8: the counter is the number of objects decoded, which is the
    number of tables kept; every fetched object was either decoded or
    reported as skipped, except the one whose fetch failed if the store
    failed. *)
Theorem fetch_accounting
        (E : env) (params exchange : str) (max_files : Z) :
  let run := get_price_run E params exchange max_files init in
  let st := snd run in
  let fetched := count_events is_get st in
  let decoded := count_events is_decoded st in
  let skipped := count_events is_skip st in
  files_read st = Z.of_nat decoded
  /\ List.length (rows st) = decoded
  /\ (decoded + skipped <= fetched <= decoded + skipped + 1)%nat
  /\ match fst run with
     | Raise (Uncaught NoSuchKey) | Raise (Uncaught ClientError) => True
     | _ => fetched = (decoded + skipped)%nat
     end.
Proof.
  cbv zeta.
  set (K := fun st => files_read st = Z.of_nat (count_events is_decoded st)
                      /\ List.length (rows st) = count_events is_decoded st).
  set (I := fun st =>
              K st /\ count_events is_get st
                      = (count_events is_decoded st + count_events is_skip st)%nat).
  set (J := fun st =>
              K st /\ (count_events is_decoded st + count_events is_skip st
                       <= count_events is_get st
                       <= count_events is_decoded st + count_events is_skip st + 1)%nat).
  assert (Hinit : I init) by (repeat split).
  assert (Hlog : forall e st,
             is_decoded e = false -> K st -> K (log e st)).
  { intros e st He [Hn Hr]; unfold K.
    rewrite count_events_log, He, Nat.add_0_r; split; assumption. }
  assert (Hdays : forall tf sym days,
             holds_after I J (for_days E max_files tf exchange sym days init)).
  { intros tf sym days.
    apply for_days_invariant; try assumption.
    - intros st [HK Hc]; split; [exact HK|lia].
    - intros p st [HK Hc]; split; [now apply Hlog|].
      rewrite !count_events_log; cbn; lia.
    - intros p st [HK Hc]; split; [now apply Hlog|].
      rewrite !count_events_log; cbn; lia.
    - intros k b df st _ _ _ _ [[Hn Hr] Hc]; split; [split|].
      + rewrite count_events_push, count_events_log; cbn.
        unfold push, append_row, log, emit; cbn [snd files_read]; lia.
      + rewrite count_events_push, count_events_log; cbn.
        unfold push, append_row, log, emit; cbn [snd rows].
        rewrite length_app; cbn [List.length]; lia.
      + rewrite !count_events_push, !count_events_log; cbn; lia.
    - intros k b st _ _ _ _ [HK Hc]; split; [now apply Hlog, Hlog|].
      rewrite !count_events_log; cbn; lia.
    - intros k e st _ _ _ [HK Hc]; split; [now apply Hlog|].
      rewrite !count_events_log; cbn; lia. }
  destruct (get_price_run_invariant E max_files I J params exchange Hinit Hdays)
    as [[[Hn Hr] Hc]|(f & Hf & Hsf & [[Hn Hr] Hc])].
  - repeat split; try assumption; try lia.
    destruct (fst (get_price_run E params exchange max_files init))
      as [resp|[s d|[]]]; first [exact Hc | exact Logic.I].
  - repeat split; try assumption; try lia.
    rewrite Hf; destruct Hsf as [->| ->]; exact Logic.I.
Qed.

(** ** Assembly of the answer *)

Section AnswerFacts.

Lemma str_eqb_eq (a b : str) : PyStr.eqb a b = true <-> a = b.
Proof.
  unfold PyStr.eqb; destruct (list_eq_dec ascii_dec a b); split;
    congruence.
Qed.

Lemma in_columns_In (c : str) (df : DataFrame) :
  in_columns c df = true <-> In c (columns df).
Proof.
  unfold in_columns; rewrite existsb_exists; split.
  - intros (x & Hx & Heq); apply str_eqb_eq in Heq; now subst.
  - intros Hin; exists c; split; [exact Hin|now apply str_eqb_eq].
Qed.

Lemma add_columns_In (c : str) (cols acc : list str) :
  In c (add_columns acc cols) -> In c acc \/ In c cols.
Proof.
  unfold add_columns; revert acc; induction cols as [|x cols IH];
    intros acc H; [now left|].
  cbn [fold_left] in H.
  destruct (existsb (PyStr.eqb x) acc).
  - destruct (IH _ H); [now left|right; now right].
  - destruct (IH _ H) as [Hacc|Hc]; [|right; now right].
    apply in_app_or in Hacc as [Hacc|[->|[]]]; [now left|right; now left].
Qed.

Lemma concat_columns_from (c : str) (frames : list DataFrame) (acc : list str) :
  In c (fold_left (fun a df => add_columns a (columns df)) frames acc) ->
  In c acc \/ exists df, In df frames /\ In c (columns df).
Proof.
  revert acc; induction frames as [|df frames IH]; intros acc H; [now left|].
  cbn [fold_left] in H.
  destruct (IH _ H) as [Hacc|(df' & Hin & Hc)].
  - apply add_columns_In in Hacc as [Hacc|Hc]; [now left|].
    right; exists df; split; [now left|exact Hc].
  - right; exists df'; split; [now right|exact Hc].
Qed.

(** A column of the concatenation is a column of one of the tables. *)
Lemma concat_in_columns (c : str) (frames : list DataFrame) :
  in_columns c (concat frames) = true ->
  exists df, In df frames /\ in_columns c df = true.
Proof.
  rewrite in_columns_In; unfold concat; cbn [columns]; intros H.
  apply concat_columns_from in H as [[]|(df & Hin & Hc)].
  exists df; split; [exact Hin|now apply in_columns_In].
Qed.

(** The concatenation has the rows of all the tables. *)
Lemma concat_length (frames : list DataFrame) :
  List.length (records (concat frames))
  = List.length (flat_map records frames).
Proof.
  unfold concat; cbn [records].
  generalize (fold_left (fun a df => add_columns a (columns df)) frames []).
  intros cols; induction frames as [|df frames IH]; [reflexivity|].
  cbn [flat_map]; rewrite !length_app, IH, length_map; reflexivity.
Qed.

End AnswerFacts.

(** X9: a successful answer repeats the three trimmed tokens of the
    request, gives the normalised symbol as partition, and its
    [rows_returned] is the number of records in [data]. *)
Theorem answer_echoes_request
        (E : env) (params exchange : str) (max_files : Z) :
  match get_price E params exchange max_files with
  | Ok resp =>
      map strip (split params ",")
      = [symbol resp; timeframe resp; range resp]
      /\ symbol_partition resp
         = normalize_symbol_for_bucket (symbol resp) exchange
      /\ rows_returned resp = Z.of_nat (List.length (data resp))
  | Raise _ => True
  end.
Proof.
  unfold get_price.
  destruct (get_price_run_stages E max_files params exchange)
    as [(f & _ & ->)|(sym & tf & rng & start & Hparts & _ & ->)];
    [exact I|].
  cbv zeta.
  destruct (for_days E max_files tf exchange _ _ init) as [[[]|f] st1];
    cbn [fst snd]; [|exact I].
  unfold assemble.
  destruct (rows st1); [exact I|].
  destruct (filter_between E candidates _ _ _) as [big|f]; [|exact I].
  cbn [fst symbol timeframe range symbol_partition rows_returned data].
  split; [exact Hparts|split; [reflexivity|]].
  unfold len, to_dict; now rewrite length_map.
Qed.

(** X10: when the traversal ends normally with decoded tables of which
    none has a column named [timestamp], [ts], [time], [datetime] or
    [date], the query succeeds and returns every row of every table. *)
Theorem untimed_tables_returned_whole
        (E : env) (max_files : Z)
        (params exchange sym tf rng : str) (start : datetime) (st : state) :
  map strip (split params ",") = [sym; tf; rng] ->
  range_start (utcnow E) rng = Ok start ->
  for_days E max_files tf exchange (normalize_symbol_for_bucket sym exchange)
           (date_iter start (utcnow E)) init = (Ok tt, st) ->
  rows st <> [] ->
  (forall df c, In df (rows st) -> In c candidates -> in_columns c df = false) ->
  get_price E params exchange max_files
  = Ok (mkPrice sym (normalize_symbol_for_bucket sym exchange) tf rng
                (Z.of_nat (List.length (flat_map records (rows st))))
                (to_dict (concat (rows st))))
  /\ List.length (to_dict (concat (rows st)))
     = List.length (flat_map records (rows st)).
Proof.
  intros Hparts Hstart Hdays Hrows Hcols.
  assert (Hfilter : forall lo hi,
             filter_between E candidates (concat (rows st)) lo hi
             = Ok (concat (rows st))).
  { intros lo hi; apply filter_between_no_column.
    apply forallb_forall; intros c Hc; apply negb_true_iff.
    destruct (in_columns c (concat (rows st))) eqn:Hin; [|reflexivity].
    apply concat_in_columns in Hin as (df & Hdf & Hcdf).
    now rewrite (Hcols df c Hdf Hc) in Hcdf. }
  split.
  - unfold get_price.
    rewrite (get_price_after_traversal E max_files params exchange sym tf rng
               start st Hparts Hstart Hdays).
    destruct (rows st) as [|df rows'] eqn:Hr; [congruence|].
    rewrite Hfilter; cbn [fst].
    unfold len; now rewrite concat_length.
  - unfold to_dict; now rewrite length_map, concat_length.
Qed.

Lemma untimed_tables_returned_whole_witness :
  get_price mixed_bucket (lit "CIPLA,15m,1d") (lit "NSE") 50
  = Ok (mkPrice (lit "CIPLA") (lit "NSE_CIPLA-EQ") (lit "15m") (lit "1d") 4
                [ [(lit "close", Int 0)]; [(lit "close", Int 1)];
                  [(lit "close", Int 3)]; [(lit "close", Int 4)] ]).
Proof.
  destruct (untimed_tables_returned_whole mixed_bucket 50
              (lit "CIPLA,15m,1d") (lit "NSE") (lit "CIPLA") (lit "15m")
              (lit "1d") (Datetime.mk 738885 0)
              (snd (for_days mixed_bucket 50 (lit "15m") (lit "NSE")
                             (lit "NSE_CIPLA-EQ") [738885; 738886]%Z init)))
    as [Hall _].
  - vm_compute; reflexivity.
  - vm_compute; reflexivity.
  - vm_compute; reflexivity.
  - vm_compute; discriminate.
  - vm_compute; intros df c Hdf Hc.
    repeat (destruct Hdf as [<-|Hdf]);
      try (repeat (destruct Hc as [<-|Hc]); try reflexivity; destruct Hc);
      destruct Hdf.
  - rewrite Hall; vm_compute; reflexivity.
Defined.

(** X16: a range with a negative magnitude starts after today: no day
    is probed, the store is not accessed, and the answer is 404. *)
Theorem future_range_probes_nothing
        (E : env) (params exchange : str) (max_files : Z)
        (sym tf p : str) (c : ascii) (val : Z) :
  map strip (split params ",") = [sym; tf; p ++ [c]] ->
  py_int p = Some val ->
  (val < 0)%Z ->
  In (lower_char c) ["d"; "m"; "y"]%char ->
  (MINORDINAL <= ordinal (utcnow E))%Z ->
  (ordinal (utcnow E) - unit_days (lower_char c) * val <= MAXORDINAL)%Z ->
  get_price_run E params exchange max_files init = (Raise NoDataFound, init).
Proof.
  intros Hparts Hint Hneg Hunit Hmin Hmax.
  unfold MINORDINAL in Hmin; unfold MAXORDINAL in Hmax.
  set (k := unit_days (lower_char c)) in *.
  assert (Hk : (1 <= k)%Z).
  { unfold k; destruct Hunit as [<-|[<-|[<-|[]]]]; vm_compute; discriminate. }
  set (start := Datetime.mk (ordinal (utcnow E) - k * val) (tod (utcnow E))).
  assert (Hback : match timedelta (k * val) with
                  | Ok d => Datetime.sub (utcnow E) d
                  | Raise f => Raise f
                  end = Ok start).
  { unfold timedelta, MAXDELTADAYS.
    destruct (Z.leb_spec (Z.abs (k * val)) 999999999); [|nia].
    unfold Datetime.sub, MINORDINAL, MAXORDINAL.
    destruct (Z.leb_spec 1 (ordinal (utcnow E) - k * val)); [|nia].
    destruct (Z.leb_spec (ordinal (utcnow E) - k * val) 3652059); [|lia].
    reflexivity. }
  assert (Hstart : range_start (utcnow E) (p ++ [c]) = Ok start).
  { rewrite (range_start_snoc _ _ _ _ Hint); cbv zeta.
    unfold k in Hback.
    destruct Hunit as [Hu|[Hu|[Hu|[]]]]; rewrite <- Hu in *;
      [change (unit_days "d") with 1%Z in Hback
      |change (unit_days "m") with 30%Z in Hback
      |change (unit_days "y") with 365%Z in Hback];
      cbn [Ascii.eqb Bool.eqb];
      [replace val with (1 * val)%Z by lia|..]; exact Hback. }
  assert (Hdays : date_iter start (utcnow E) = []).
  { unfold date_iter, py_range, date, start; cbn [ordinal].
    replace (Z.to_nat _) with 0%nat by nia.
    reflexivity. }
  rewrite (get_price_after_traversal E max_files params exchange sym tf
             (p ++ [c]) start init Hparts Hstart); [reflexivity|].
  now rewrite Hdays.
Qed.

Lemma future_range_probes_nothing_witness :
  get_price_run empty_bucket (lit "CIPLA,15m,-5d") (lit "NSE") 50 init
  = (Raise NoDataFound, init).
Proof.
  apply (future_range_probes_nothing empty_bucket (lit "CIPLA,15m,-5d")
           (lit "NSE") 50 (lit "CIPLA") (lit "15m") (lit "-5") "d"%char (-5)%Z);
    try reflexivity.
  - simpl; auto.
  - vm_compute; discriminate.
  - vm_compute; discriminate.
Defined.

(** ** The direct-key endpoint *)

Section KeyFacts.

Variable E : env.

Lemma set_nth_length (i : nat) (v : value) (row : list value) :
  List.length (set_nth i v row) = List.length row.
Proof.
  revert i; induction row as [|x row IH]; intros [|i]; cbn; auto.
Qed.

Lemma nth_set_nth_same (i : nat) (v d : value) (row : list value) :
  (i < List.length row)%nat -> nth i (set_nth i v row) d = v.
Proof.
  revert i; induction row as [|x row IH]; intros [|i] Hi; cbn in *;
    try lia; [reflexivity|].
  apply IH; lia.
Qed.

Lemma nth_set_nth_other (i j : nat) (v d : value) (row : list value) :
  i <> j -> nth j (set_nth i v row) d = nth j row d.
Proof.
  revert i j; induction row as [|x row IH]; intros [|i] [|j] Hij; cbn;
    try reflexivity; try congruence.
  apply IH; congruence.
Qed.

Lemma set_cells_length (i : nat) (rows : list (list value)) (vals : list value) :
  List.length (set_cells i rows vals) = List.length rows.
Proof.
  revert vals; induction rows as [|row rows IH]; intros [|v vals]; cbn; auto.
Qed.

Lemma index_of_nth (c : str) (cols : list str) (i : nat) :
  index_of c cols = Some i ->
  (i < List.length cols)%nat /\ nth i cols [] = c.
Proof.
  revert i; induction cols as [|x cols IH]; intros i H; [discriminate|].
  cbn [index_of] in H.
  destruct (PyStr.eqb x c) eqn:Hx.
  - injection H as <-; apply str_eqb_eq in Hx; cbn; split; [lia|exact Hx].
  - destruct (index_of c cols) as [j|]; [|discriminate].
    injection H as <-; destruct (IH j eq_refl) as [Hlt Hn].
    cbn; split; [lia|exact Hn].
Qed.

Lemma index_of_in_columns (c : str) (df : DataFrame) :
  in_columns c df = true -> exists i, index_of c (columns df) = Some i.
Proof.
  rewrite in_columns_In.
  induction (columns df) as [|x cols IH]; intros Hin; [destruct Hin|].
  cbn [index_of]; destruct (PyStr.eqb x c) eqn:Hx; [now exists 0%nat|].
  destruct Hin as [->|Hin].
  - assert (PyStr.eqb c c = true) by now apply str_eqb_eq.
    congruence.
  - destruct (IH Hin) as [i ->]; now exists (S i).
Qed.

Lemma set_column_shape (df : DataFrame) (c : str) (vals : list value) :
  columns (set_column df c vals) = columns df
  /\ List.length (records (set_column df c vals)) = List.length (records df).
Proof.
  unfold set_column; destruct (index_of c (columns df)); cbn [columns records];
    [|now split].
  split; [reflexivity|apply set_cells_length].
Qed.

(** Reading back a column that was just assigned. *)
Lemma column_set_column_same (df : DataFrame) (c : str) (vals : list value) :
  well_formed df ->
  in_columns c df = true ->
  List.length vals = List.length (records df) ->
  column (set_column df c vals) c = vals.
Proof.
  intros Hwf Hin Hlen.
  destruct (index_of_in_columns c df Hin) as [i Hi].
  destruct (index_of_nth _ _ _ Hi) as [Hlt _].
  unfold column, set_column, cell; rewrite Hi; cbn [columns records]; rewrite Hi.
  unfold well_formed in Hwf.
  revert vals Hlen; induction (records df) as [|row rows IH]; intros vals Hlen.
  - destruct vals; [reflexivity|discriminate].
  - destruct vals as [|v vals]; [discriminate|].
    inversion Hwf as [|? ? Hrow Hrows]; subst.
    cbn [set_cells map]; f_equal.
    + apply nth_set_nth_same; lia.
    + apply IH; [exact Hrows|now injection Hlen].
Qed.

(** The other columns are not touched by an assignment. *)
Lemma column_set_column_other (df : DataFrame) (c c' : str) (vals : list value) :
  c' <> c -> column (set_column df c vals) c' = column df c'.
Proof.
  intros Hne; unfold column, set_column.
  destruct (index_of c (columns df)) as [i|] eqn:Hi; [|reflexivity].
  cbn [columns records]; unfold cell.
  destruct (index_of c' (columns df)) as [j|] eqn:Hj.
  - assert (Hij : i <> j).
    { intros ->; destruct (index_of_nth _ _ _ Hi) as [_ H1].
      destruct (index_of_nth _ _ _ Hj) as [_ H2]; congruence. }
    revert vals; induction (records df) as [|row rows IH]; intros vals;
      [reflexivity|].
    destruct vals as [|v vals]; [reflexivity|].
    cbn [set_cells map]; f_equal; [now apply nth_set_nth_other|apply IH].
  - revert vals; induction (records df) as [|row rows IH]; intros vals;
      [reflexivity|].
    destruct vals as [|v vals]; [reflexivity|].
    cbn [set_cells map]; f_equal; apply IH.
Qed.

Lemma naive_timestamps_first (cands : list str) (df : DataFrame) :
  naive_timestamps E cands df
  = match first_present cands df with
    | Some c =>
        if to_datetime_naive E (column df c)
        then Raise (Uncaught TypeError)
        else Ok (set_column df c
                   (tz_convert_none (to_datetime_cells E (column df c))))
    | None => Ok df
    end.
Proof.
  unfold first_present; induction cands as [|c cands IH]; [reflexivity|].
  cbn [naive_timestamps find].
  destruct (in_columns c df); [|exact IH].
  unfold to_datetime_utc.
  now destruct (to_datetime_naive E (column df c)).
Qed.

Lemma first_present_in (cands : list str) (df : DataFrame) (c : str) :
  first_present cands df = Some c -> in_columns c df = true.
Proof. intros H; now apply find_some in H. Qed.

Lemma converted_naive (col : list value) :
  Forall naive_or_missing (tz_convert_none (to_datetime_cells E col)).
Proof.
  unfold tz_convert_none, to_datetime_cells; rewrite map_map.
  apply Forall_forall; intros v Hv; apply in_map_iff in Hv as (x & <- & _).
  destruct (parse_instant E x); [right; eauto|now left].
Qed.

(** A conversion that succeeds keeps the shape of the table. *)
Lemma naive_timestamps_shape (cands : list str) (df df' : DataFrame) :
  naive_timestamps E cands df = Ok df' ->
  columns df' = columns df
  /\ List.length (records df') = List.length (records df).
Proof.
  rewrite naive_timestamps_first.
  destruct (first_present cands df) as [c|].
  - destruct (to_datetime_naive E (column df c)); [discriminate|].
    intros H; injection H as <-; apply set_column_shape.
  - intros H; injection H as <-; now split.
Qed.

End KeyFacts.

(** X12: the outcomes of a direct-key fetch.  It succeeds exactly when
    the object exists, decodes, and its first candidate column, if it has
    one, is kept by the conversion; it then repeats the key and returns as
    many rows as the table has.  A missing key gives 404; any other store
    failure and a decode failure are handed on uncaught; and a candidate
    column that the conversion gives up ends in an uncaught [TypeError]. *)
Theorem get_by_key_outcome (E : env) (k : str) :
  match get_by_key E k with
  | Ok resp =>
      exists b df,
        get_object E k = inr b /\ pq_read_table E b = Some df
        /\ (forall c, first_present candidates df = Some c ->
                      to_datetime_naive E (column df c) = false)
        /\ key resp = k
        /\ nrows resp = Z.of_nat (List.length (records df))
        /\ List.length (key_data resp) = List.length (records df)
  | Raise f =>
      (f = HTTPException 404 (lit "Key not found in bucket.")
       /\ get_object E k = inl S3NoSuchKey)
      \/ (f = Uncaught ClientError /\ get_object E k = inl S3ClientError)
      \/ (f = Uncaught ArrowInvalid
          /\ exists b, get_object E k = inr b /\ pq_read_table E b = None)
      \/ (f = Uncaught TypeError
          /\ exists b df c,
               get_object E k = inr b /\ pq_read_table E b = Some df
               /\ first_present candidates df = Some c
               /\ to_datetime_naive E (column df c) = true)
  end.
Proof.
  unfold get_by_key.
  destruct (get_object E k) as [[]|b] eqn:Hget;
    [left; now split | right; left; now split |].
  unfold read_parquet_bytes.
  destruct (pq_read_table E b) as [df|] eqn:Hdec.
  - destruct (naive_timestamps E candidates df) as [df'|f] eqn:Hconv.
    + destruct (naive_timestamps_shape E _ _ _ Hconv) as [_ Hlen].
      rewrite naive_timestamps_first in Hconv.
      exists b, df; cbn [key nrows key_data].
      split; [reflexivity|].
      split; [exact Hdec|].
      split.
      { intros c Hc; rewrite Hc in Hconv.
        now destruct (to_datetime_naive E (column df c)). }
      split; [reflexivity|].
      split.
      * unfold len; now rewrite Hlen.
      * unfold to_dict; rewrite length_map; exact Hlen.
    + rewrite naive_timestamps_first in Hconv.
      destruct (first_present candidates df) as [c|] eqn:Hfirst;
        [|discriminate].
      destruct (to_datetime_naive E (column df c)) eqn:Hnaive;
        [|discriminate].
      injection Hconv as <-.
      right; right; right; split; [reflexivity|].
      exists b, df, c; repeat split; assumption.
  - right; right; left; split; [reflexivity|].
    exists b; split; [reflexivity|exact Hdec].
Qed.

(** X13: when a direct-key fetch decodes a well-formed table whose first
    column present among [timestamp], [ts], [time], [datetime], [date] is
    kept by the conversion, it succeeds, and in the answer that column
    holds the instants read from the original cells, every one without
    time zone, the unreadable ones missing. *)
Theorem get_by_key_timestamps_naive
        (E : env) (k : str) (b : list Byte.byte) (df : DataFrame) (c : str) :
  get_object E k = inr b ->
  pq_read_table E b = Some df ->
  well_formed df ->
  first_present candidates df = Some c ->
  to_datetime_naive E (column df c) = false ->
  let df' :=
    set_column df c (tz_convert_none (to_datetime_cells E (column df c))) in
  get_by_key E k = Ok (mkKeyResp k (len df') (to_dict df'))
  /\ column df' c = tz_convert_none (to_datetime_cells E (column df c))
  /\ Forall naive_or_missing (column df' c).
Proof.
  intros Hget Hdec Hwf Hfirst Hkept df'.
  assert (Hcol : column df' c
                 = tz_convert_none (to_datetime_cells E (column df c))).
  { unfold df'; apply column_set_column_same;
      [exact Hwf | exact (first_present_in _ _ _ Hfirst)|].
    unfold tz_convert_none, to_datetime_cells, column.
    now rewrite !length_map. }
  split; [|split; [exact Hcol|]].
  - unfold get_by_key, read_parquet_bytes; rewrite Hget, Hdec.
    now rewrite naive_timestamps_first, Hfirst, Hkept.
  - rewrite Hcol; apply converted_naive.
Qed.

Lemma get_by_key_timestamps_naive_witness :
  column (set_column stamped_table (lit "timestamp")
            (tz_convert_none
               (to_datetime_cells stamped_bucket
                  (column stamped_table (lit "timestamp")))))
         (lit "timestamp")
  = [ Timestamp false noon_before;
      Timestamp false (noon_before - 365 * 86400000000);
      NaT;
      Timestamp false (instant new_year_2024) ].
Proof.
  destruct (get_by_key_timestamps_naive stamped_bucket (lit "k.parquet") []
              stamped_table (lit "timestamp")) as (_ & Hcol & _);
    [reflexivity | reflexivity | repeat constructor | reflexivity
     | reflexivity |].
  rewrite Hcol; vm_compute; reflexivity.
Defined.

(** X14: a direct-key fetch whose conversion succeeds changes nothing
    else: the answer has the columns and the number of rows of the decoded
    table, every column other than the converted one holds the original
    cells, and a table without any of the candidate columns is returned as
    it is. *)
Theorem get_by_key_other_columns
        (E : env) (k : str) (b : list Byte.byte) (df df' : DataFrame) :
  get_object E k = inr b ->
  pq_read_table E b = Some df ->
  naive_timestamps E candidates df = Ok df' ->
  get_by_key E k = Ok (mkKeyResp k (len df') (to_dict df'))
  /\ columns df' = columns df
  /\ List.length (records df') = List.length (records df)
  /\ (forall c', first_present candidates df <> Some c' ->
                 column df' c' = column df c')
  /\ (first_present candidates df = None -> df' = df).
Proof.
  intros Hget Hdec Hconv.
  split; [unfold get_by_key, read_parquet_bytes; now rewrite Hget, Hdec, Hconv|].
  destruct (naive_timestamps_shape E _ _ _ Hconv) as [Hcols Hlen].
  split; [exact Hcols|split; [exact Hlen|]].
  rewrite naive_timestamps_first in Hconv.
  destruct (first_present candidates df) as [c|].
  - destruct (to_datetime_naive E (column df c)); [discriminate|].
    injection Hconv as <-.
    split; [|discriminate].
    intros c' Hne; apply column_set_column_other; congruence.
  - injection Hconv as <-; split; reflexivity.
Qed.

Lemma get_by_key_other_columns_witness :
  column (set_column stamped_table (lit "timestamp")
            (tz_convert_none
               (to_datetime_cells stamped_bucket
                  (column stamped_table (lit "timestamp")))))
         (lit "close")
  = [Int 101; Int 90; Int 95; Int 102].
Proof.
  destruct (get_by_key_other_columns stamped_bucket (lit "k.parquet") []
              stamped_table
              (set_column stamped_table (lit "timestamp")
                 (tz_convert_none
                    (to_datetime_cells stamped_bucket
                       (column stamped_table (lit "timestamp"))))))
    as (_ & _ & _ & Hother & _);
    [reflexivity | reflexivity | vm_compute; reflexivity |].
  rewrite Hother; [vm_compute; reflexivity|discriminate].
Defined.

(** A [date] column of booleans makes the direct-key fetch fail. *)
Example flagged_key_raises_type_error :
  get_by_key flagged_bucket (lit "k.parquet") = Raise (Uncaught TypeError).
Proof. vm_compute; reflexivity. Qed.

Lemma date_iter_days_witness :
  In 738885%Z (date_iter (Datetime.mk 738885 0) new_year_2024).
Proof.
  apply (date_iter_days (Datetime.mk 738885 0) new_year_2024).
  vm_compute; split; discriminate.
Defined.
